(** * Clerk: the NITT memo and mail tracking script (src/Memo.py)

    A shallow embedding of the script and the properties its description
    states about it.  The script is a Streamlit page: every interaction
    re-runs it from the top with the current widget values, so one run is a
    function of the stored files, the widget values, the clock and the
    random source.

    Modelling conventions.
    - Text is a [string] of UTF-8 bytes.
    - A pandas cell is an [option value]: [None] is the missing value (NaN).
      Columns are untyped, as object columns are.
    - A Python dict is an association list with distinct keys, in insertion
      order.
    - The records workbook is a sheet of text, formula and date cells, the
      kinds the script writes; it is read cell by cell.  It is kept apart
      from the other files, which are opaque contents stored under their
      normalised path.
    - Two things the libraries do to a text are left out: openpyxl refuses a
      control character, and pandas reads a column of texts that all look
      like numbers or truth values as such.  Neither happens to a
      [plain_text]; the statements that a write goes through, or that say
      what is read back after it, are made for plain texts.
    - The three folders made at lines 19-21 always exist; directories are
      not tracked.
    - A write or an open can fail, as the environment of the run decides; a
      failed write leaves no file behind.
    - Calls that only draw on the page (titles, tables, images) are left out;
      the four kinds of status message are recorded.
    - Of the Dashboard page, which leaves the workbook alone, the table it
      works on, the type and department filters, the selection of the shown
      columns and the export of the filtered table are modelled; the
      date-range filter is not, and the export takes the filtered table as
      given. *)

From Stdlib Require Import ZArith Ascii.
From stdpp Require Import base option list strings gmap.

Local Open Scope Z_scope.

(** ** Python text operations used by the script *)

Module Py.

Definition ord (c : ascii) : Z := Z.of_nat (nat_of_ascii c).
Definition chr (n : Z) : ascii := ascii_of_nat (Z.to_nat n).

Definition char_eqb (a b : ascii) : bool := bool_decide (a = b).

Fixpoint prefix (p s : string) : bool :=
  match p, s with
  | EmptyString, _ => true
  | String a p', String b s' => char_eqb a b && prefix p' s'
  | String _ _, EmptyString => false
  end.

Fixpoint contains_char (c : ascii) (s : string) : bool :=
  match s with
  | EmptyString => false
  | String a s' => char_eqb a c || contains_char c s'
  end.

(** [s.replace(old, new)] for a non-empty [old]: occurrences are replaced
    from the left and do not overlap.  [skip] counts the bytes of a match
    still to be dropped. *)
Fixpoint replace_from (old new : string) (skip : nat) (s : string) : string :=
  match s with
  | EmptyString => EmptyString
  | String c s' =>
      match skip with
      | S k => replace_from old new k s'
      | O =>
          if prefix old s
          then new +:+ replace_from old new (Nat.pred (String.length old)) s'
          else String c (replace_from old new O s')
      end
  end.

Definition replace (old new s : string) : string := replace_from old new O s.

(** [s.split(sep)[-1]] for a one-character [sep]: what follows the last
    separator, the whole text when there is none. *)
Fixpoint last_field_from (sep : ascii) (acc s : string) : string :=
  match s with
  | EmptyString => acc
  | String c s' =>
      if char_eqb c sep then last_field_from sep EmptyString s'
      else last_field_from sep (acc +:+ String c EmptyString) s'
  end.

Definition split_last (sep : ascii) (s : string) : string :=
  last_field_from sep EmptyString s.

(** [s.lower()], exact on ASCII; other bytes are kept.  It is used to compare
    with ASCII words, which no non-ASCII letter lowers to. *)
Definition lower_char (c : ascii) : ascii :=
  let n := ord c in if (65 <=? n) && (n <=? 90) then chr (n + 32) else c.

Fixpoint lower (s : string) : string :=
  match s with
  | EmptyString => EmptyString
  | String c s' => String (lower_char c) (lower s')
  end.

(** Byte length of the white-space character at the head of [s] (0 when
    there is none).  White space is what [str.isspace] accepts: the ASCII
    ones and, through their UTF-8 encodings, U+0085, U+00A0, U+1680,
    U+2000..U+200A, U+2028, U+2029, U+202F, U+205F and U+3000. *)
Definition space_len (s : string) : nat :=
  match s with
  | EmptyString => O
  | String a s1 =>
      let x := ord a in
      if ((9 <=? x) && (x <=? 13)) || ((28 <=? x) && (x <=? 32)) then 1%nat
      else match s1 with
           | EmptyString => O
           | String b s2 =>
               let y := ord b in
               if (x =? 194) && ((y =? 133) || (y =? 160)) then 2%nat
               else match s2 with
                    | EmptyString => O
                    | String c _ =>
                        let z := ord c in
                        if ((x =? 225) && (y =? 154) && (z =? 128))
                           || ((x =? 226) && (y =? 128)
                               && (((128 <=? z) && (z <=? 138))
                                   || (z =? 168) || (z =? 169) || (z =? 175)))
                           || ((x =? 226) && (y =? 129) && (z =? 159))
                           || ((x =? 227) && (y =? 128) && (z =? 128))
                        then 3%nat else O
                    end
           end
  end.

Fixpoint lstrip_from (skip : nat) (s : string) : string :=
  match s with
  | EmptyString => EmptyString
  | String _ s' =>
      match skip with
      | S k => lstrip_from k s'
      | O => match space_len s with
             | O => s
             | S k => lstrip_from k s'
             end
      end
  end.

Definition lstrip (s : string) : string := lstrip_from O s.

Definition is_empty (s : string) : bool :=
  match s with EmptyString => true | _ => false end.

Fixpoint rstrip (s : string) : string :=
  match s with
  | EmptyString => EmptyString
  | String c s' => if is_empty (lstrip s) then EmptyString else String c (rstrip s')
  end.

Definition strip (s : string) : string := rstrip (lstrip s).

(** [str(n)] for an integer. *)
Definition digit (d : Z) : ascii := chr (48 + d).

Fixpoint digits_from (fuel : nat) (n : Z) (acc : string) : string :=
  let acc' := String (digit (n mod 10)) acc in
  match fuel with
  | O => acc'
  | S f => if n <? 10 then acc' else digits_from f (n / 10) acc'
  end.

Definition str_nat (n : Z) : string :=
  digits_from (Z.to_nat (Z.log2 n)) n EmptyString.

Definition str_int (n : Z) : string :=
  if n <? 0 then String "-"%char (str_nat (- n)) else str_nat n.

(** [s[:k]] *)
Fixpoint take (k : nat) (s : string) : string :=
  match k, s with
  | S k', String c s' => String c (take k' s')
  | _, _ => EmptyString
  end.

(** Zero padding to [w] digits, as [%m], [%d], [%H], [%M] and [%Y] do. *)
Fixpoint zeros (k : nat) : string :=
  match k with O => EmptyString | S k' => String "0"%char (zeros k') end.

Definition pad (w : nat) (n : Z) : string :=
  let s := str_int n in zeros (w - String.length s) +:+ s.

Definition is_digit (c : ascii) : bool := (48 <=? ord c) && (ord c <=? 57).

Fixpoint all_digits (s : string) : bool :=
  match s with
  | EmptyString => true
  | String c s' => is_digit c && all_digits s'
  end.

(** [repr(s)] for a text: the quote is the double one only when the text
    has a single quote and no double quote; the quote and the backslash are
    escaped; tab, line feed and carriage return have their letters; other
    control characters are written in hexadecimal.  Bytes above 127 are kept,
    as Python keeps the printable characters they encode; it escapes the
    others (the no-break space, the line separators, ...), so this is
    [repr] on ASCII text and on printable text. *)
Definition hex_digit (d : Z) : ascii :=
  if d <? 10 then chr (48 + d) else chr (87 + d).

Definition repr_char (q c : ascii) : string :=
  let n := ord c in
  if char_eqb c q || (n =? 92) then String (chr 92) (String c EmptyString)
  else if n =? 9 then "\t"
  else if n =? 10 then "\n"
  else if n =? 13 then "\r"
  else if (n <? 32) || (n =? 127)
       then "\x" +:+ String (hex_digit (n / 16)) (String (hex_digit (n mod 16)) EmptyString)
  else String c EmptyString.

Fixpoint repr_body (q : ascii) (s : string) : string :=
  match s with
  | EmptyString => EmptyString
  | String c s' => repr_char q c +:+ repr_body q s'
  end.

Definition repr (s : string) : string :=
  let q := if contains_char (chr 39) s && negb (contains_char (chr 34) s)
           then chr 34 else chr 39 in
  String q (repr_body q s +:+ String q EmptyString).

(** Collapsing of repeated slashes, the part of path resolution that the
    script's paths exercise. *)
Fixpoint normpath (s : string) : string :=
  match s with
  | EmptyString => EmptyString
  | String c s' =>
      match s' with
      | String d _ =>
          if char_eqb c "/"%char && char_eqb d "/"%char then normpath s'
          else String c (normpath s')
      | EmptyString => String c EmptyString
      end
  end.

(** [os.path.join(a, b)] *)
Definition path_join (a b : string) : string :=
  if prefix "/" b then b
  else if is_empty a then b
  else if char_eqb (default "/"%char (last (String.list_ascii_of_string a))) "/"%char
       then a +:+ b
  else a +:+ "/" +:+ b.

End Py.


(** ** Values, tables and the workbook *)

(** One entry of a memo's history (lines 300-306). *)
Record entry := Entry {
  e_date : string;
  e_action : string;
  e_to : string;
  e_comment : string;
  e_attachment : option string
}.

Record date := Date { d_year : Z; d_month : Z; d_day : Z }.

Record datetime := DateTime {
  t_year : Z; t_month : Z; t_day : Z; t_hour : Z; t_minute : Z
}.

(** What a cell of the table can hold besides the missing value. *)
Inductive value :=
| VStr (s : string)
| VDate (d : date)
| VList (h : list entry).

#[global] Instance entry_eq_dec : EqDecision entry.
Proof. solve_decision. Defined.
#[global] Instance date_eq_dec : EqDecision date.
Proof. solve_decision. Defined.
#[global] Instance value_eq_dec : EqDecision value.
Proof. solve_decision. Defined.

(** A Python dict. *)
Definition pydict := list (string * value).

Fixpoint dict_get (k : string) (d : pydict) : option value :=
  match d with
  | [] => None
  | (k', v) :: d' => if decide (k' = k) then Some v else dict_get k d'
  end.

(** [d[k] = v]: an existing key keeps its place. *)
Fixpoint dict_set (k : string) (v : value) (d : pydict) : pydict :=
  match d with
  | [] => [(k, v)]
  | (k', v') :: d' => if decide (k' = k) then (k, v) :: d' else (k', v') :: dict_set k v d'
  end.

(** [d.update(u)] *)
Definition dict_update (d u : pydict) : pydict :=
  fold_left (fun acc kv => dict_set kv.1 kv.2 acc) u d.

Definition dict_keys (d : pydict) : list string := d.*1.

(** A DataFrame with the default 0..n-1 row index: the column labels in
    order, and the rows.  A row maps a column to its cell; a column it does
    not map holds the missing value. *)
Record DataFrame := Frame {
  columns : list string;
  rows : list (gmap string value)
}.

(** [pd.DataFrame()] *)
Definition empty_frame : DataFrame := Frame [] [].

(** [pd.DataFrame([data])] *)
Definition frame_of_dict (data : pydict) : DataFrame :=
  Frame (dict_keys data) [list_to_map data].

(** [pd.concat([a, b], ignore_index=True)]: the rows of [a] then those of
    [b], under the columns of [a] followed by the new ones of [b]. *)
Definition concat (a b : DataFrame) : DataFrame :=
  Frame (columns a ++ filter (fun c => c ∉ columns a) (columns b))
        (rows a ++ rows b).

(** [df.empty] *)
Definition frame_empty (df : DataFrame) : bool :=
  match rows df, columns df with
  | [], _ | _, [] => true
  | _, _ => false
  end.

Definition has_column (c : string) (df : DataFrame) : bool :=
  bool_decide (c ∈ columns df).

(** [df[c] = v] for a scalar [v], and [df[c] = [v for _ in range(len(df))]]:
    the column is added at the end when it is new. *)
Definition set_column (c : string) (v : value) (df : DataFrame) : DataFrame :=
  Frame (if has_column c df then columns df else columns df ++ [c])
        (insert c v <$> rows df).

(** [df[c] = df[src]]: every row takes the cell it has under [src]. *)
Definition copy_column (c src : string) (df : DataFrame) : DataFrame :=
  Frame (if has_column c df then columns df else columns df ++ [c])
        ((fun r => match r !! src with
                   | Some v => <[c := v]> r
                   | None => delete c r
                   end) <$> rows df).

(** [df.at[i, c] = v] for a row [i] the table has, the only use the script
    makes of it: a new column is added at the end.  (For a row it has not,
    pandas adds one; the list is left as it is.) *)
Definition set_at (i : nat) (c : string) (v : value) (df : DataFrame) : DataFrame :=
  Frame (if has_column c df then columns df else columns df ++ [c])
        (alter (insert c v) i (rows df)).

(** [df.at[i, c]] for a row the table has and a column checked before. *)
Definition cell_at (i : nat) (c : string) (df : DataFrame) : option value :=
  rows df !! i ≫= (fun r => r !! c).

(** A cell of the workbook that is not blank. *)
Inductive xcell :=
| XText (s : string)
| XFormula (s : string)
| XDate (d : date).

#[global] Instance xcell_eq_dec : EqDecision xcell.
Proof. solve_decision. Defined.

(** The sheet of the records workbook: a header row and the data rows.  A
    column a row does not map is a blank cell. *)
Record xlsx := Sheet {
  xcolumns : list string;
  xrows : list (gmap string xcell)
}.

(** [str(h)] for a history list, the text pandas writes for a list cell. *)
Definition str_attachment (a : option string) : string :=
  match a with Some n => Py.repr n | None => "None" end.

Definition str_entry (e : entry) : string :=
  "{'Date': " +:+ Py.repr (e_date e) +:+
  ", 'Action': " +:+ Py.repr (e_action e) +:+
  ", 'To': " +:+ Py.repr (e_to e) +:+
  ", 'Comment': " +:+ Py.repr (e_comment e) +:+
  ", 'Attachment': " +:+ str_attachment (e_attachment e) +:+ "}".

Fixpoint str_entries (h : list entry) : string :=
  match h with
  | [] => ""
  | [e] => str_entry e
  | e :: h' => str_entry e +:+ ", " +:+ str_entries h'
  end.

Definition str_history (h : list entry) : string := "[" +:+ str_entries h +:+ "]".

(** The texts [pd.read_excel] takes for a missing value (its default
    list, the empty text apart). *)
Definition na_texts : list string :=
  ["#N/A"; "#N/A N/A"; "#NA"; "-1.#IND"; "-1.#QNAN"; "-NaN"; "-nan"; "1.#IND";
   "1.#QNAN"; "<NA>"; "N/A"; "NA"; "NULL"; "NaN"; "None"; "n/a"; "nan"; "null"].

Definition na_text (s : string) : bool := bool_decide (s ∈ na_texts).

(** A text of more than one character that starts with the equals sign is
    stored as a formula. *)
Definition formula_text (s : string) : bool :=
  Py.prefix "=" s && negb (bool_decide (s = "=")).

(** What [DataFrame.to_excel] stores for a cell.  pandas passes dates on as
    dates and turns every value that is not a number, a boolean or a date
    into [str(value)], a list included; an empty text leaves the cell blank,
    and a text that starts with the equals sign becomes a formula. *)
Definition write_cell (v : value) : option xcell :=
  match v with
  | VStr s =>
      if Py.is_empty s then None
      else if formula_text s then Some (XFormula s)
      else Some (XText s)
  | VDate d => Some (XDate d)
  | VList h => Some (XText (str_history h))
  end.

(** What [pd.read_excel] returns for a cell: a text stays the text it is
    (nothing parses it back into a list) unless it is one of the texts taken
    for a missing value; a date is a midnight timestamp, here the same
    [VDate]; a blank cell and a formula, which has no stored result, are the
    missing value.  The re-typing of a column whose texts all read as numbers
    or as booleans is not modelled: statements on what is read back name the
    texts they are about ([plain_text] below). *)
Definition read_cell (x : xcell) : option value :=
  match x with
  | XText s => if Py.is_empty s || na_text s then None else Some (VStr s)
  | XFormula _ => None
  | XDate d => Some (VDate d)
  end.

(** A row is written, and read, under the columns of the header only. *)
Definition under {A} (cols : list string) (r : gmap string A) : gmap string A :=
  filter (fun kv => kv.1 ∈ cols) r.

Definition write_row (cols : list string) (r : gmap string value) : gmap string xcell :=
  omap write_cell (under cols r).

Definition read_row (cols : list string) (r : gmap string xcell) : gmap string value :=
  omap read_cell (under cols r).

Definition frame_to_sheet (df : DataFrame) : xlsx :=
  Sheet (columns df) (write_row (columns df) <$> rows df).

Definition sheet_to_frame (f : xlsx) : DataFrame :=
  Frame (xcolumns f) (read_row (xcolumns f) <$> xrows f).

(** ** Stored state, environment and the effects of a run *)

(** What a file other than the workbook holds: the bytes that were
    uploaded, a PDF with a line of text stamped on its first page, or the
    CSV text of a table. *)
Inductive content :=
| Raw (bytes : list Byte.byte)
| Stamped (c : content) (text : string)
| Csv (df : DataFrame).

(** A file handed over by [st.file_uploader]. *)
Record upload := Upload { u_name : string; u_bytes : list Byte.byte }.

Record world := World {
  records : option xlsx;          (* memos/records/memo_records.xlsx *)
  files : gmap string content     (* every other file, by normalised path *)
}.

Inductive message :=
| Info (s : string)
| Error (s : string)
| Success (s : string)
| Warning (s : string).

Record state := State { disk : world; shown : list message }.

(** What a run takes from outside: the clock, the random bytes behind
    [uuid.uuid4()] as one 128-bit integer, and whether the environment lets a
    file be written or opened. *)
Record env := Env {
  now : datetime;
  urandom : Z;
  can_write : string -> bool;
  can_open : string -> bool
}.

Inductive exn :=
| KeyError (k : string)
| IndexError
| ValueError
| OSError (path : string)
| FileDataError (path : string).

Inductive result (A : Type) :=
| Ok (a : A)
| Raise (e : exn).
Arguments Ok {A} a.
Arguments Raise {A} e.

(** A computation reads and changes the state and returns or raises.  There
    is no operation that catches: the script has no [try]. *)
Definition M (A : Type) : Type := state -> result A * state.

#[global] Instance M_ret : MRet M := fun A a s => (Ok a, s).
#[global] Instance M_bind : MBind M := fun A B k m s =>
  match m s with
  | (Ok a, s') => k a s'
  | (Raise e, s') => (Raise e, s')
  end.

Definition raise {A} (e : exn) : M A := fun s => (Raise e, s).

Definition lift {A} (r : result A) : M A := fun s => (r, s).

Definition memo_file : string := "memos/records/memo_records.xlsx".
Definition scanned_folder : string := "memos/scanned/".

Definition departments : list string := [
  "DG/CE"; "SA"; "TA"; "Transport School"; "Training Department";
  "Transport Research & Intelligence Department"; "Transport Technology Centre (TTC)";
  "Consultancy Services Department"; "Library & Information Services Department";
  "Registry"; "Bursary"; "Internal Audit";
  "PPP, Partnership & Collaboration Unit"; "Legal Services Unit";
  "Press & Public Relations Unit"; "Procurement Unit"; "Physical Planning Unit";
  "SERVICOM"; "ACTU – Anti-Corruption & Transparency Unit"; "Medical Center"
].

(** [os.path.exists(memo_file)] *)
Definition records_exist : M bool :=
  fun s => (Ok (bool_decide (is_Some (records (disk s)))), s).

(** [pd.read_excel(memo_file)] *)
Definition read_excel : M DataFrame :=
  fun s => match records (disk s) with
           | Some f => (Ok (sheet_to_frame f), s)
           | None => (Raise (OSError memo_file), s)
           end.

(** [df.to_excel(memo_file, index=False)]: the workbook becomes the sheet of
    [df], whatever it held.  The file is opened before any cell is written,
    so a file that cannot be written is the first failure.  The second one,
    openpyxl's IllegalCharacterError for a text with a control character, is
    not modelled: this is [to_excel] on tables of legal texts. *)
Definition to_excel (e : env) (df : DataFrame) : M unit :=
  fun s => if can_write e memo_file
           then (Ok (), State (World (Some (frame_to_sheet df)) (files (disk s))) (shown s))
           else (Raise (OSError memo_file), s).

(** [with open(path, "wb") as f: f.write(...)] *)
Definition write_file (e : env) (path : string) (c : content) : M unit :=
  fun s => if can_write e path
           then (Ok (), State (World (records (disk s))
                                     (<[Py.normpath path := c]> (files (disk s))))
                              (shown s))
           else (Raise (OSError path), s).

(** [os.path.exists(path)] for a file other than the workbook. *)
Definition path_exists (path : string) : M bool :=
  fun s => (Ok (bool_decide (is_Some (files (disk s) !! Py.normpath path))), s).

Definition read_file (path : string) : M content :=
  fun s => match files (disk s) !! Py.normpath path with
           | Some c => (Ok c, s)
           | None => (Raise (OSError path), s)
           end.

Definition show (m : message) : M unit :=
  fun s => (Ok (), State (disk s) (shown s ++ [m])).

(** ** Helper functions of the script (lines 42-90) *)

(** The integer of [uuid.uuid4()]: the random bits with the variant and the
    version written over them, as the UUID constructor does. *)
Definition uuid4_int (r : Z) : Z :=
  Z.lor (Z.land (Z.lor (Z.land r (Z.lnot (Z.shiftl 0xc000 48))) (Z.shiftl 0x8000 48))
                (Z.lnot (Z.shiftl 0xf000 64)))
        (Z.shiftl 4 76).

(** [generate_memo_number] (lines 42-46) *)
Definition generate_memo_number (e : env) : string :=
  let year := t_year (now e) in
  let unique_id := Py.take 4 (Py.str_int (uuid4_int (urandom e))) in
  "NITT/DG/" +:+ Py.str_int year +:+ "/" +:+ unique_id.

(** [[] if pd.isna(x) else x] on one History cell.  For a list [pd.isna]
    answers with an array, which has a truth value only when it has exactly
    one element (since NumPy 2.2 the empty array has none either; before, it
    counted as false with a deprecation warning). *)
Definition fill_history (x : option value) : result value :=
  match x with
  | None => Ok (VList [])
  | Some (VList h) => if (length h =? 1)%nat then Ok (VList h) else Raise ValueError
  | Some v => Ok v
  end.

(** [df['History'].apply(...)], row by row. *)
Fixpoint apply_history (rs : list (gmap string value)) : result (list (gmap string value)) :=
  match rs with
  | [] => Ok []
  | r :: rs' =>
      match fill_history (r !! "History") with
      | Raise e => Raise e
      | Ok v =>
          match apply_history rs' with
          | Raise e => Raise e
          | Ok rs'' => Ok (<["History" := v]> r :: rs'')
          end
      end
  end.

(** Lines 56-59, and again 66-69: the History column is created, one empty
    list a row, when the table has none; otherwise its missing cells become
    empty lists. *)
Definition ensure_history (df : DataFrame) : result DataFrame :=
  if has_column "History" df
  then match apply_history (rows df) with
       | Ok rs => Ok (Frame (columns df) rs)
       | Raise e => Raise e
       end
  else Ok (set_column "History" (VList []) df).

(** [save_memo_record] (lines 48-60) *)
Definition save_memo_record (e : env) (data : pydict) : M unit :=
  ex ← records_exist;
  df ← (if ex : bool
        then df ← read_excel; mret (concat df (frame_of_dict data))
        else mret (frame_of_dict data));
  df ← lift (ensure_history df);
  to_excel e df.

(** [load_memos] (lines 62-72) *)
Definition load_memos : M DataFrame :=
  ex ← records_exist;
  if ex : bool
  then df ← read_excel; lift (ensure_history df)
  else mret empty_frame.

(** [stamp_pdf_with_memo_number] (lines 74-90): the document is opened, the
    reference is written on its first page and the result is saved beside it.
    PyMuPDF refuses to save a document over the file it was opened from. *)
Definition stamp_pdf_with_memo_number (e : env) (pdf_path memo_number : string) : M string :=
  doc ← (if can_open e pdf_path then read_file pdf_path else raise (FileDataError pdf_path));
  let stamped_path := Py.replace ".pdf" "_stamped.pdf" pdf_path in
  if bool_decide (stamped_path = pdf_path) then raise ValueError
  else write_file e stamped_path (Stamped doc ("Reference No: " +:+ memo_number));;
       mret stamped_path.

(** ** Page 1: Log Memo (lines 106-163) *)

(** The widgets that depend on the memo type: the two department boxes of an
    internal memo, or the four sender fields of an external one. *)
Inductive party :=
| Internal (from_department to_department : string)
| External (sender_name sender_address sender_email sender_phone : string).

Definition memo_type (p : party) : string :=
  match p with Internal _ _ => "Internal" | External _ _ _ _ => "External" end.

Record log_form := LogForm {
  title : string;
  date_received : date;
  signatory : string;
  who : party;
  uploaded_file : option upload;
  save_pressed : bool               (* st.button("Save Memo Record") *)
}.

(** [memo_data] (lines 143-160) *)
Definition memo_data (memo_number : string) (f : log_form) : pydict :=
  let base := [
    ("Memo Number", VStr memo_number);
    ("Title", VStr (title f));
    ("Date Received", VDate (date_received f));
    ("Type", VStr (memo_type (who f)));
    ("Signatory", VStr (signatory f));
    ("Status", VStr "Pending");
    ("Current Location",
      VStr (match who f with
            | Internal _ to_department => to_department
            | External sender_name _ _ _ => sender_name
            end))
  ] in
  match who f with
  | Internal from_department to_department =>
      dict_update base [("From", VStr from_department); ("To", VStr to_department)]
  | External sender_name sender_address sender_email sender_phone =>
      dict_update base [
        ("Sender Name", VStr sender_name);
        ("Sender Address", VStr sender_address);
        ("Sender Email", VStr sender_email);
        ("Sender Phone", VStr sender_phone)
      ]
  end.

(** The body of [if st.button("Save Memo Record"):] (lines 128-163). *)
Definition save_memo_handler (e : env) (memo_number : string) (f : log_form) : M unit :=
  if Py.is_empty (Py.strip (title f)) then show (Error "Please enter memo title.")
  else match uploaded_file f with
       | None => show (Error "Please upload scanned memo.")
       | Some up =>
           let safe_memo_number := Py.replace "/" "-" memo_number in
           let file_extension := Py.split_last "."%char (u_name up) in
           let scanned_file_path :=
             scanned_folder +:+ "/" +:+ safe_memo_number +:+ "." +:+ file_extension in
           write_file e scanned_file_path (Raw (u_bytes up));;
           (if bool_decide (Py.lower file_extension = "pdf")
            then stamp_pdf_with_memo_number e scanned_file_path memo_number
            else mret scanned_file_path);;
           save_memo_record e (memo_data memo_number f);;
           show (Success "Memo logged successfully!")
       end.

Definition log_memo_page (e : env) (f : log_form) : M unit :=
  let memo_number := generate_memo_number e in
  show (Info ("Generated Memo Number: " +:+ memo_number));;
  if save_pressed f then save_memo_handler e memo_number f else mret ().

(** ** Page 2: Dashboard & Search, up to the table it works on (lines 172-179)

    The page reloads the records and gives the table a Current Location
    column when it has none: the To column when there is one, an empty text
    otherwise.  What follows on that page filters and shows this table and
    writes none of the stores above. *)
Definition ensure_location (df : DataFrame) : DataFrame :=
  if has_column "Current Location" df then df
  else if has_column "To" df then copy_column "Current Location" "To" df
  else set_column "Current Location" (VStr "") df.

Definition dashboard_table : M (option DataFrame) :=
  df_memos ← load_memos;
  if frame_empty df_memos
  then show (Info "No memo records to display.");; mret None
  else mret (Some (ensure_location df_memos)).

(** The filters and the shown columns of the page (lines 181-221).  The
    date-range filter between them (lines 196-199, 210-215, 219) changes no
    column label; it is not modelled. *)

(** [s.dropna().unique().tolist()]: the values in the order they first
    appear. *)
Fixpoint unique (seen l : list value) : list value :=
  match l with
  | [] => []
  | v :: l' => if bool_decide (v ∈ seen) then unique seen l' else v :: unique (v :: seen) l'
  end.

(** [df[c].dropna().unique().tolist()] *)
Definition column_unique (c : string) (df : DataFrame) : result (list value) :=
  if has_column c df
  then Ok (unique [] (omap (fun r : gmap string value => r !! c) (rows df)))
  else Raise (KeyError c).

(** The options of the Filter by Memo Type box (lines 182-185). *)
Definition type_options (df : DataFrame) : result (list value) :=
  match column_unique "Type" df with
  | Ok l => Ok (VStr "All" :: l)
  | Raise ex => Raise ex
  end.

(** [df[df[c] == v]] *)
Definition filter_eq (c : string) (v : value) (df : DataFrame) : result DataFrame :=
  if has_column c df
  then Ok (Frame (columns df)
                 (filter (fun r : gmap string value => r !! c = Some v) (rows df)))
  else Raise (KeyError c).

(** Lines 202-209 *)
Definition apply_filters (memo_type_filter dept_filter : value) (df_memos : DataFrame)
    : result DataFrame :=
  match (if bool_decide (memo_type_filter ≠ VStr "All")
         then filter_eq "Type" memo_type_filter df_memos
         else Ok df_memos) with
  | Raise ex => Raise ex
  | Ok df_filtered =>
      if bool_decide (dept_filter ≠ VStr "All")
      then if bool_decide (memo_type_filter = VStr "Internal")
           then filter_eq "From" dept_filter df_filtered
           else filter_eq "Sender Name" dept_filter df_filtered
      else Ok df_filtered
  end.

(** Line 218 *)
Definition display_cols : list string :=
  ["Memo Number"; "Title"; "Type"; "From"; "To"; "Date Received"; "Status";
   "Current Location"].

(** [str(labels)] *)
Fixpoint str_labels_body (l : list string) : string :=
  match l with
  | [] => ""
  | [c] => Py.repr c
  | c :: l' => Py.repr c +:+ ", " +:+ str_labels_body l'
  end.

Definition str_labels (l : list string) : string := "[" +:+ str_labels_body l +:+ "]".

(** [df[cols]] for a list of labels (line 221): a KeyError unless every
    label is a column; its message is reduced to the labels not found. *)
Definition select_columns (cols : list string) (df : DataFrame) : result DataFrame :=
  match filter (fun c => c ∉ columns df) cols with
  | [] => Ok (Frame cols (under cols <$> rows df))
  | missing => Raise (KeyError (str_labels missing +:+ " not in index"))
  end.

(** The body of [if st.button("Download Filtered Records"):] (lines
    240-242), for the filtered table of the page. *)
Definition download_handler (e : env) (df_filtered : DataFrame) : M unit :=
  write_file e "filtered_memos.csv" (Csv df_filtered);;
  show (Success "Filtered records saved as 'filtered_memos.csv'.").

(** ** Page 3: Preview & Approve / Forward (lines 247-327) *)

Record preview_form := PreviewForm {
  selected_memo : option value;     (* the chosen Memo Number cell *)
  forward_to : string;
  comment : string;
  uploaded_attachment : option upload;
  forward_pressed : bool            (* st.button("Forward/Reply") *)
}.

(** The options of the Forward/Reply To box. *)
Definition forward_options : list string := "Select Department/User" :: departments.

(** [str(Timestamp)] of a date cell, and what an f-string prints for a cell. *)
Definition str_date (d : date) : string :=
  Py.pad 4 (d_year d) +:+ "-" +:+ Py.pad 2 (d_month d) +:+ "-" +:+ Py.pad 2 (d_day d).

Definition format_cell (x : option value) : string :=
  match x with
  | None => "nan"
  | Some (VStr s) => s
  | Some (VDate d) => str_date d +:+ " 00:00:00"
  | Some (VList h) => str_history h
  end.

(** [strftime("%Y-%m-%d %H:%M")] *)
Definition strftime (t : datetime) : string :=
  Py.pad 4 (t_year t) +:+ "-" +:+ Py.pad 2 (t_month t) +:+ "-" +:+ Py.pad 2 (t_day t)
  +:+ " " +:+ Py.pad 2 (t_hour t) +:+ ":" +:+ Py.pad 2 (t_minute t).

(** [df['Memo Number'] == selected_memo] on one row: a missing value equals
    nothing. *)
Definition is_memo (sel : option value) (r : gmap string value) : bool :=
  match r !! "Memo Number", sel with
  | Some a, Some b => bool_decide (a = b)
  | _, _ => false
  end.

(** [df[mask].index[0]]: the first row the mask keeps. *)
Fixpoint first_index (p : gmap string value -> bool) (rs : list (gmap string value)) : option nat :=
  match rs with
  | [] => None
  | r :: rs' => if p r then Some O else S <$> first_index p rs'
  end.

(** Lines 267-288: the scanned file is looked for under the memo number and
    opened for display when found. *)
Fixpoint first_existing (sel : string) (exts : list string) (fallback : string) : M string :=
  match exts with
  | [] => mret fallback
  | ext :: exts' =>
      let temp_path := Py.path_join scanned_folder (sel +:+ "." +:+ ext) in
      ex ← path_exists temp_path;
      if ex : bool then mret temp_path else first_existing sel exts' fallback
  end.

Definition show_scanned (e : env) (sel : string) : M unit :=
  let pdf := Py.path_join scanned_folder (sel +:+ ".pdf") in
  found ← path_exists pdf;
  scanned_file_path ← (if found : bool then mret pdf
                       else first_existing sel ["png"; "jpg"; "jpeg"] pdf);
  ex ← path_exists scanned_file_path;
  if ex : bool
  then (if can_open e scanned_file_path then mret ()
        else raise (FileDataError scanned_file_path))
  else show (Warning "Scanned memo file not found.").

(** The entry of lines 300-306. *)
Definition new_entry (e : env) (f : preview_form) : entry :=
  Entry (strftime (now e)) "Forwarded/Reply" (forward_to f) (comment f)
        (u_name <$> uploaded_attachment f).

(** Lines 297-310: the table after the three assignments.  The list read at
    line 297 belongs to this cell alone, so appending to it changes no other
    cell. *)
Definition forward_table (e : env) (memo_index : nat) (f : preview_form)
    (df_memos : DataFrame) : DataFrame :=
  let history := match cell_at memo_index "History" df_memos with
                 | Some (VList h) => h
                 | _ => []
                 end in
  let history := history ++ [new_entry e f] in
  let df := set_at memo_index "History" (VList history) df_memos in
  let df := set_at memo_index "Current Location" (VStr (forward_to f)) df in
  set_at memo_index "Status" (VStr ("Forwarded to " +:+ forward_to f)) df.

(** The body of [if st.button("Forward/Reply"):] (lines 297-319); it leaves
    the changed table to the rest of the run. *)
Definition forward_handler (e : env) (memo_index : nat) (f : preview_form)
    (df_memos : DataFrame) : M DataFrame :=
  (if has_column "History" df_memos then mret () else raise (KeyError "History"));;
  let df := forward_table e memo_index f df_memos in
  match uploaded_attachment f with
  | Some up =>
      let attach_path :=
        Py.path_join "memos/attachments"
                     (format_cell (selected_memo f) +:+ "_" +:+ u_name up) in
      write_file e attach_path (Raw (u_bytes up))
  | None => mret ()
  end;;
  to_excel e df;;
  show (Success ("Memo forwarded/replied to " +:+ forward_to f +:+ " successfully!"));;
  mret df.

(** Lines 321-327 *)
Definition show_history (memo_index : nat) (df : DataFrame) : M unit :=
  (if has_column "History" df then mret () else raise (KeyError "History"));;
  match cell_at memo_index "History" df with
  | Some (VList (_ :: _)) => mret ()      (* one line of markdown an entry *)
  | _ => show (Info "No history available for this memo yet.")
  end.

Definition preview_page (e : env) (df_memos : DataFrame) (f : preview_form) : M unit :=
  if frame_empty df_memos then show (Info "No memos to preview.")
  else
    (if has_column "Memo Number" df_memos then mret () else raise (KeyError "Memo Number"));;
    match first_index (is_memo (selected_memo f)) (rows df_memos) with
    | None => raise IndexError
    | Some memo_index =>
        show_scanned e (format_cell (selected_memo f));;
        df ← (if forward_pressed f then forward_handler e memo_index f df_memos
              else mret df_memos);
        show_history memo_index df
    end.

(** ** One run of the script *)

Inductive page :=
| LogMemo (f : log_form)
| PreviewForward (f : preview_form).

(** Line 95 loads the records; the chosen page follows. *)
Definition script (e : env) (p : page) : M unit :=
  df_memos ← load_memos;
  match p with
  | LogMemo f => log_memo_page e f
  | PreviewForward f => preview_page e df_memos f
  end.

(** ** Vocabulary of the statements, and the inputs of the examples *)

(** What a stored History cell looks like after loading. *)
Definition fill_row (r : gmap string value) : gmap string value :=
  <["History" := default (VList []) (r !! "History")]> r.

Definition no_list (r : gmap string value) : Prop :=
  forall h, r !! "History" ≠ Some (VList h).

Definition loaded_table (f : xlsx) : DataFrame :=
  if has_column "History" (sheet_to_frame f)
  then Frame (xcolumns f) (fill_row <$> rows (sheet_to_frame f))
  else set_column "History" (VList []) (sheet_to_frame f).

Definition table_in_memory (old : option xlsx) (data : pydict) : DataFrame :=
  match old with
  | Some f => concat (sheet_to_frame f) (frame_of_dict data)
  | None => frame_of_dict data
  end.

(** The rows [pd.read_excel] returns for the workbook, none when there is no
    workbook. *)
Definition stored_rows (w : world) : list (gmap string value) :=
  match records w with
  | Some f => rows (sheet_to_frame f)
  | None => []
  end.

(** What is read back for a value that was written. *)
Definition reread (v : value) : option value := write_cell v ≫= read_cell.

(** A row whose values are read back as they are. *)
Definition stable (r : gmap string value) : Prop :=
  forall c v, r !! c = Some v -> reread v = Some v.

Definition fill_stored (r : gmap string value) : gmap string value :=
  <["History" := default (VStr "[]") (r !! "History")]> r.

Definition stored_record (data : pydict) : gmap string value :=
  <["History" := VStr "[]"]> (omap reread (list_to_map data)).

Definition keys_under (cols : list string) (r : gmap string value) : Prop :=
  forall c, is_Some (r !! c) -> c ∈ cols.

(** ** Texts that a workbook keeps as they were written

    [to_excel] and [pd.read_excel] do more to a text than [write_cell] and
    [read_cell] say: openpyxl refuses a text with a control character
    (IllegalCharacterError) and cuts one at 32767 characters, and pandas
    reads a column whose texts all look like numbers or truth values as
    numbers or truth values.  A text is [plain_text] when none of this can
    happen to it: it is not blank, is none of the texts read as missing, does
    not start as a formula, has no refused character, and has a character that
    no number has.  The statements about what is read back are made for
    such texts. *)
Definition illegal_char (c : ascii) : bool :=
  let n := Py.ord c in
  (n <=? 8) || (n =? 11) || (n =? 12) || ((14 <=? n) && (n <=? 31)).

Fixpoint legal_text (s : string) : bool :=
  match s with
  | EmptyString => true
  | String c s' => negb (illegal_char c) && legal_text s'
  end.

(** The characters [float] and the number parser of pandas read in a
    number. *)
Definition numeric_char (c : ascii) : bool :=
  Py.is_digit c
  || bool_decide (c ∈ ["+"; "-"; "."; "e"; "E"; ","; "_"; "%"; "$"; " "]%char)
  || ((9 <=? Py.ord c) && (Py.ord c <=? 13)).

Fixpoint has_marker (s : string) : bool :=
  match s with
  | EmptyString => false
  | String c s' => negb (numeric_char c) || has_marker s'
  end.

Definition special_texts : list string :=
  ["inf"; "+inf"; "-inf"; "infinity"; "+infinity"; "-infinity";
   "nan"; "+nan"; "-nan"; "true"; "false"].

Definition special_text (s : string) : bool :=
  bool_decide (Py.lower (Py.strip s) ∈ special_texts).

Definition plain_text (s : string) : bool :=
  negb (Py.is_empty s) && negb (na_text s) && negb (Py.prefix "=" s)
  && legal_text s && has_marker s && negb (special_text s)
  && (Z.of_nat (String.length s) <=? 32767).

(** A value of a record that is written and read back as it is: a blank, a
    plain text or a date. *)
Definition kept_value (v : value) : bool :=
  match v with
  | VStr s => Py.is_empty s || plain_text s
  | VDate _ => true
  | VList _ => false
  end.

Definition plain_dict (data : pydict) : bool :=
  forallb (fun kv => plain_text (fst kv) && kept_value (snd kv)) data.

(** A cell of a workbook that is read as missing or as what it holds. *)
Definition plain_cell (x : xcell) : bool :=
  match x with
  | XText s => Py.is_empty s || na_text s || plain_text s
  | XFormula _ => true
  | XDate _ => true
  end.

Definition plain_sheet (x : xlsx) : bool :=
  bool_decide (NoDup (xcolumns x))
  && forallb plain_text (xcolumns x)
  && forallb (fun r => forallb (fun kv => plain_cell (snd kv)) (map_to_list r))
       (xrows x).

Definition plain_records (w : world) : bool :=
  match records w with
  | Some x => plain_sheet x
  | None => true
  end.

(** Texts of ASCII characters, on which [Py.repr] is Python's [repr]. *)
Fixpoint ascii_text (s : string) : bool :=
  match s with
  | EmptyString => true
  | String c s' => (Py.ord c <? 128) && ascii_text s'
  end.

(** A Forward/Reply form whose entry [str_history] renders as Python does,
    in a text short enough for a cell. *)
Definition ascii_form (e : env) (f : preview_form) : bool :=
  ascii_text (forward_to f) && ascii_text (comment f)
  && from_option (fun up => ascii_text (u_name up)) true (uploaded_attachment f)
  && (Z.of_nat (String.length (str_history [new_entry e f])) <=? 32767).

(** A relation between the state before and after that every step of a
    computation respects. *)
Definition keeps (P : state -> state -> Prop) {A} (m : M A) : Prop :=
  forall s r s', m s = (r, s') -> P s s'.


(** The relations used below. *)
Definition same_disk (s s' : state) : Prop := disk s' = disk s.

Definition same_records (s s' : state) : Prop := records (disk s') = records (disk s).

Definition more_shown (s s' : state) : Prop := exists rest, shown s' = shown s ++ rest.

Definition env_example : env :=
  Env (DateTime 2024 3 5 9 7) 0 (fun _ => true) (fun _ => true).

Definition form_blank_title : log_form :=
  LogForm "   " (Date 2024 3 4) "Registrar" (Internal "SA" "TA")
          (Some (Upload "scan.pdf" [])) true.

Definition destination (p : party) : string :=
  match p with
  | Internal _ to_department => to_department
  | External sender_name _ _ _ => sender_name
  end.

Definition form_example : log_form :=
  LogForm "Budget" (Date 2024 3 4) "Registrar" (Internal "SA" "TA")
          (Some (Upload "scan.pdf" [])) true.

(** As worded: the stored table afterwards is the stored table before with
    one row added at the end. *)
Definition appends_one_row (e : env) (data : pydict) (w : world) : Prop :=
  exists r,
    stored_rows (disk (snd (save_memo_record e data (State w []))))
    = stored_rows w ++ [r].

Definition sheet_without_history : xlsx :=
  Sheet ["Memo Number"; "Title"]
        [{["Memo Number" := XText "NITT/DG/2023/1111"; "Title" := XText "Leave roster"]}].

Definition history_of (r : gmap string value) : list entry :=
  match r !! "History" with
  | Some (VList h) => h
  | _ => []
  end.

(** The selected row after lines 297-310. *)
Definition forwarded_row (e : env) (f : preview_form) (r : gmap string value)
    : gmap string value :=
  <["Status" := VStr ("Forwarded to " +:+ forward_to f)]>
    (<["Current Location" := VStr (forward_to f)]>
       (<["History" := VList (history_of r ++ [new_entry e f])]> r)).

(** As worded: one field of the selected record takes every change. *)
Definition single_field_update (e : env) (i : nat) (f : preview_form) (df : DataFrame)
    : Prop :=
  exists c, forall r r',
    rows df !! i = Some r ->
    rows (forward_table e i f df) !! i = Some r' ->
    forall c', c' ≠ c -> r' !! c' = r !! c'.

Definition row_example : gmap string value :=
  {["Memo Number" := VStr "NITT/DG/2024/3022"; "Status" := VStr "Pending";
    "Current Location" := VStr "TA"; "History" := VList []]}.

Definition table_example : DataFrame :=
  Frame ["Memo Number"; "Status"; "Current Location"; "History"] [row_example].

Definition forward_example : preview_form :=
  PreviewForm (Some (VStr "NITT/DG/2024/3022")) "SA" "for action" None true.

Definition sheet_two_rows : xlsx :=
  Sheet ["Memo Number"; "History"]
        [{["Memo Number" := XText "NITT/DG/2024/3022"; "History" := XText "[]"]};
         {["Memo Number" := XText "NITT/DG/2024/4410"; "History" := XText "[]"]}].

Definition loaded (w : world) : DataFrame :=
  match records w with
  | Some f => loaded_table f
  | None => empty_frame
  end.

(** As worded: after loading, every row's History is a list. *)
Definition history_all_lists (df : DataFrame) : Prop :=
  forall r, r ∈ rows df -> exists h, r !! "History" = Some (VList h).

Definition loads_lists (w : world) : Prop :=
  forall df s', load_memos (State w []) = (Ok df, s') -> history_all_lists df.

(** The workbook a first Save leaves: its History cell is the text "[]". *)
Definition sheet_logged : xlsx :=
  Sheet ["Memo Number"; "Status"; "Current Location"; "History"]
        [{["Memo Number" := XText "NITT/DG/2024/3022"; "Status" := XText "Pending";
           "Current Location" := XText "TA"; "History" := XText "[]"]}].

Definition env_later : env :=
  Env (DateTime 2024 3 6 14 30) 0 (fun _ => true) (fun _ => true).

Definition forward_again : preview_form :=
  PreviewForm (Some (VStr "NITT/DG/2024/3022")) "Registry" "noted" None true.

Definition run_logged : result unit * state :=
  script env_example (LogMemo form_example) (State (World None ∅) []).

Definition run_forwarded : result unit * state :=
  script env_example (PreviewForward forward_example) (State (disk (snd run_logged)) []).

Definition run_forwarded_again : result unit * state :=
  script env_later (PreviewForward forward_again) (State (disk (snd run_forwarded)) []).

Definition stored_history (s : state) (i : nat) : option value :=
  stored_rows (disk s) !! i ≫= (fun r => r !! "History").

(** An environment in which the workbook, and only it, cannot be written. *)
Definition env_records_locked : env :=
  Env (DateTime 2024 3 5 9 7) 0
      (fun p => negb (bool_decide (p = memo_file))) (fun _ => true).

(** The environment of [e] in which every write goes through. *)
Definition reliable (e : env) : env :=
  Env (now e) (urandom e) (fun _ => true) (can_open e).

(** From each state, [m] raises or does what [m'] does. *)
Definition raises_or_agrees {A} (m m' : M A) : Prop :=
  forall s, (exists ex s', m s = (Raise ex, s')) \/ m s = m' s.

(** Further vocabulary and inputs. *)

Definition forward_unknown : preview_form :=
  PreviewForm (Some (VStr "NITT/DG/2024/9999")) "SA" "" None true.

Definition table_duplicates : DataFrame :=
  Frame ["Memo Number"; "Status"; "Current Location"; "History"]
        [{["Memo Number" := VStr "NITT/DG/2024/4410"; "Status" := VStr "Pending"]};
         row_example; row_example].

Definition scanned_path (n : string) (up : upload) : string :=
  scanned_folder +:+ "/" +:+ Py.replace "/" "-" n +:+ "." +:+ Py.split_last "."%char (u_name up).

Definition is_pdf (up : upload) : bool :=
  bool_decide (Py.lower (Py.split_last "."%char (u_name up)) = "pdf").

Definition form_image : log_form :=
  LogForm "Budget" (Date 2024 3 4) "" (External "Ministry" "Abuja" "" "")
          (Some (Upload "scan.png" [])) true.

(** Every path the Preview page tries for a generated number starts so. *)
Definition lookup_prefix : string := "memos/scanned/NITT/".

Definition off_lookup (s s' : state) : Prop :=
  forall k, Py.prefix lookup_prefix k = true -> files (disk s') !! k = files (disk s) !! k.

Definition attach_path (f : preview_form) (up : upload) : string :=
  Py.path_join "memos/attachments" (format_cell (selected_memo f) +:+ "_" +:+ u_name up).

(** The files after a Save has written all of its own: the scanned memo and,
    for a PDF, its stamped copy. *)
Definition saved_files (n : string) (up : upload) (fs : gmap string content)
    : gmap string content :=
  let scanned := <[Py.normpath (scanned_path n up) := Raw (u_bytes up)]> fs in
  if is_pdf up
  then <[Py.normpath (Py.replace ".pdf" "_stamped.pdf" (scanned_path n up))
         := Stamped (Raw (u_bytes up)) ("Reference No: " +:+ n)]> scanned
  else scanned.

(** The files after a Forward/Reply has written its attachment, if any. *)
Definition attached_files (f : preview_form) (fs : gmap string content)
    : gmap string content :=
  match uploaded_attachment f with
  | Some up => <[Py.normpath (attach_path f up) := Raw (u_bytes up)]> fs
  | None => fs
  end.

Definition forwarded_message (f : preview_form) : message :=
  Success ("Memo forwarded/replied to " +:+ forward_to f +:+ " successfully!").

Definition forward_with_file : preview_form :=
  PreviewForm (Some (VStr "NITT/DG/2024/3022")) "SA" "see attached"
              (Some (Upload "note.png" [])) true.

Definition env_attachments_locked : env :=
  Env (DateTime 2024 3 5 9 7) 0
      (fun p => negb (Py.prefix "memos/attachments" p)) (fun _ => true).

Definition stored_columns (w : world) : list string :=
  match records w with
  | Some x => xcolumns x
  | None => []
  end.

Definition table_external : DataFrame :=
  Frame ["Memo Number"; "Title"; "Date Received"; "Type"; "Signatory"; "Status";
         "Current Location"; "Sender Name"; "Sender Address"; "Sender Email";
         "Sender Phone"; "History"]
        [{["Memo Number" := VStr "NITT/DG/2024/3022"; "Title" := VStr "Budget";
           "Date Received" := VDate (Date 2024 3 4); "Type" := VStr "External";
           "Status" := VStr "Pending"; "Current Location" := VStr "Ministry";
           "Sender Name" := VStr "Ministry"; "Sender Address" := VStr "Abuja";
           "History" := VStr "[]"]}].

Definition form_external : log_form :=
  LogForm "Audit query" (Date 2024 3 4) "" (External "Ministry" "Abuja" "" "")
          (Some (Upload "scan.png" [])) true.

(** * Properties *)

(** ** The text operations on examples *)

Example replace_slash : Py.replace "/" "-" "NITT/DG/2024/1234" = "NITT-DG-2024-1234".
Proof. reflexivity. Qed.

Example replace_pdf :
  Py.replace ".pdf" "_stamped.pdf" "memos/scanned//a.pdf" = "memos/scanned//a_stamped.pdf".
Proof. reflexivity. Qed.

Example split_last_ex : Py.split_last "."%char "scan.v2.PDF" = "PDF".
Proof. reflexivity. Qed.

Example strip_ex : Py.strip "  a b  " = "a b".
Proof. vm_compute. reflexivity. Qed.

Example str_int_ex : Py.str_int 2024 = "2024" /\ Py.str_int 0 = "0" /\ Py.pad 2 7 = "07".
Proof. vm_compute. auto. Qed.

Example repr_ex : Py.repr "it's" = String (Py.chr 34) ("it's" +:+ String (Py.chr 34) EmptyString).
Proof. vm_compute. reflexivity. Qed.

Example normpath_ex : Py.normpath "memos/scanned//a.pdf" = "memos/scanned/a.pdf".
Proof. vm_compute. reflexivity. Qed.

(** ** Numbers as text *)

Section MemoNumber.

Lemma ord_chr n : 0 <= n < 256 -> Py.ord (Py.chr n) = n.
Proof.
  intros Hn. unfold Py.ord, Py.chr.
  rewrite nat_ascii_embedding by lia. lia.
Qed.

Lemma is_digit_digit d : 0 <= d < 10 -> Py.is_digit (Py.digit d) = true.
Proof.
  intros Hd. unfold Py.is_digit, Py.digit.
  rewrite ord_chr by lia.
  apply andb_true_intro; split; apply Z.leb_le; lia.
Qed.

Lemma digits_from_all_digits fuel : forall n acc,
  0 <= n -> Py.all_digits acc = true -> Py.all_digits (Py.digits_from fuel n acc) = true.
Proof.
  induction fuel as [|fuel IH]; intros n acc Hn Hacc; cbn [Py.digits_from].
  - cbn [Py.all_digits]. rewrite is_digit_digit, Hacc; [done|].
    apply Z.mod_pos_bound; lia.
  - assert (Py.all_digits (String (Py.digit (n mod 10)) acc) = true) as Hd.
    { cbn [Py.all_digits]. rewrite is_digit_digit, Hacc; [done|].
      apply Z.mod_pos_bound; lia. }
    destruct (n <? 10); [exact Hd|].
    apply IH; [|exact Hd]. apply Z.div_pos; lia.
Qed.

Lemma digits_from_length fuel n acc :
  (String.length acc < String.length (Py.digits_from fuel n acc))%nat.
Proof.
  revert n acc. induction fuel as [|fuel IH]; intros n acc; cbn [Py.digits_from].
  - cbn. lia.
  - destruct (n <? 10); [cbn; lia|].
    specialize (IH (n / 10) (String (Py.digit (n mod 10)) acc)). cbn in IH. lia.
Qed.

Lemma digits_from_four fuel n acc :
  1000 <= n -> (3 <= fuel)%nat ->
  (String.length acc + 4 <= String.length (Py.digits_from fuel n acc))%nat.
Proof.
  intros Hn Hf.
  destruct fuel as [|[|[|fuel]]]; try lia.
  assert (100 <= n / 10) by (apply Z.div_le_lower_bound; lia).
  assert (10 <= n / 10 / 10) by (apply Z.div_le_lower_bound; lia).
  cbn [Py.digits_from].
  destruct (Z.ltb_spec n 10); [lia|].
  destruct (Z.ltb_spec (n / 10) 10); [lia|].
  destruct (Z.ltb_spec (n / 10 / 10) 10); [lia|].
  match goal with |- (_ <= String.length (Py.digits_from _ _ ?a))%nat =>
    pose proof (digits_from_length fuel (n / 10 / 10 / 10) a) as Hl; cbn in Hl end.
  lia.
Qed.

Lemma take_length k : forall s, (k <= String.length s)%nat -> String.length (Py.take k s) = k.
Proof.
  induction k as [|k IH]; intros [|c s] Hs; cbn in *; try lia.
  rewrite IH; lia.
Qed.

Lemma take_all_digits k : forall s, Py.all_digits s = true -> Py.all_digits (Py.take k s) = true.
Proof.
  induction k as [|k IH]; intros [|c s] Hs; cbn in *; try done.
  apply andb_true_iff in Hs as [-> Hs]. cbn. by apply IH.
Qed.

Lemma uuid4_int_lower r : 0 <= r -> 2 ^ 78 <= uuid4_int r.
Proof.
  intros Hr. unfold uuid4_int.
  set (a := Z.land _ (Z.lnot (Z.shiftl 61440 64))).
  assert (0 <= a) as Ha.
  { subst a. apply Z.land_nonneg. left. apply Z.lor_nonneg. split; [|done].
    apply Z.land_nonneg. by left. }
  assert (0 <= Z.lor a (Z.shiftl 4 76)) as Hx by (apply Z.lor_nonneg; done).
  assert (Z.testbit (Z.lor a (Z.shiftl 4 76)) 78 = true) as Hb.
  { rewrite Z.lor_spec. replace (Z.testbit (Z.shiftl 4 76) 78) with true by done.
    apply orb_true_r. }
  destruct (Z.lt_ge_cases (Z.lor a (Z.shiftl 4 76)) (2 ^ 78)) as [Hlt|]; [|done].
  exfalso.
  destruct (Z.eq_dec (Z.lor a (Z.shiftl 4 76)) 0) as [E|E].
  { rewrite E in Hb. by rewrite Z.bits_0 in Hb. }
  rewrite Z.bits_above_log2 in Hb; [done|lia|].
  apply Z.log2_lt_pow2; lia.
Qed.

End MemoNumber.

(** ** Reading and writing rows, and loading *)

Lemma under_lookup {A} cols (r : gmap string A) c :
  under cols r !! c = if bool_decide (c ∈ cols) then r !! c else None.
Proof.
  unfold under. rewrite map_lookup_filter.
  destruct (r !! c) as [x|]; cbn; [|by case_bool_decide].
  case_bool_decide; [by rewrite option_guard_True|by rewrite option_guard_False].
Qed.

Lemma read_row_lookup cols (x : gmap string xcell) c :
  read_row cols x !! c = if bool_decide (c ∈ cols) then x !! c ≫= read_cell else None.
Proof. unfold read_row. rewrite lookup_omap, under_lookup. by case_bool_decide. Qed.

Lemma write_row_lookup cols (r : gmap string value) c :
  write_row cols r !! c = if bool_decide (c ∈ cols) then r !! c ≫= write_cell else None.
Proof. unfold write_row. rewrite lookup_omap, under_lookup. by case_bool_decide. Qed.

Lemma read_cell_no_list x h : read_cell x ≠ Some (VList h).
Proof. destruct x as [s|s|d]; cbn; [destruct (Py.is_empty s || na_text s)| |]; done. Qed.

Lemma read_row_no_list cols x : no_list (read_row cols x).
Proof.
  intros h. rewrite read_row_lookup. case_bool_decide; [|done].
  destruct (x !! "History") as [c|]; cbn; [apply read_cell_no_list|done].
Qed.

Lemma fill_history_no_list (x : option value) :
  (forall h, x ≠ Some (VList h)) -> fill_history x = Ok (default (VList []) x).
Proof. intros H. destruct x as [[s|d|h]|]; cbn; try done. by destruct (H h). Qed.

Lemma apply_history_no_list rs :
  Forall no_list rs -> apply_history rs = Ok (fill_row <$> rs).
Proof.
  induction 1 as [|r rs Hr _ IH]; cbn [apply_history]; [done|].
  rewrite fill_history_no_list by exact Hr. rewrite IH. done.
Qed.

Lemma Forall_no_list_read cols xs : Forall no_list (read_row cols <$> xs).
Proof. apply Forall_fmap, Forall_forall. intros x _. apply read_row_no_list. Qed.

Lemma ensure_history_sheet f : ensure_history (sheet_to_frame f) = Ok (loaded_table f).
Proof.
  unfold ensure_history, loaded_table.
  destruct (has_column "History" (sheet_to_frame f)); [|done].
  cbn [rows sheet_to_frame columns]. by rewrite apply_history_no_list by apply Forall_no_list_read.
Qed.

Lemma load_memos_ok s :
  load_memos s = (Ok (match records (disk s) with
                      | Some f => loaded_table f
                      | None => empty_frame
                      end), s).
Proof.
  unfold load_memos, mbind, M_bind, records_exist, read_excel, lift, mret, M_ret.
  destruct (records (disk s)) as [f|] eqn:E.
  - rewrite bool_decide_true by eauto. cbv beta iota. rewrite E.
    by rewrite ensure_history_sheet.
  - rewrite bool_decide_false; [done|]. by intros [? ?].
Qed.

(** ** Saving a record *)

Lemma save_memo_record_run e data s :
  save_memo_record e data s =
  match ensure_history (table_in_memory (records (disk s)) data) with
  | Ok df => to_excel e df s
  | Raise ex => (Raise ex, s)
  end.
Proof.
  unfold save_memo_record, mbind, M_bind, records_exist, read_excel, lift, mret, M_ret,
    table_in_memory.
  destruct (records (disk s)) as [f|] eqn:E.
  - rewrite bool_decide_true by eauto. cbv beta iota. rewrite E.
    by destruct (ensure_history _).
  - rewrite bool_decide_false by (by intros [? ?]). cbv beta iota.
    by destruct (ensure_history _).
Qed.

Lemma list_to_map_dict_get (data : pydict) k :
  (list_to_map data : gmap string value) !! k = dict_get k data.
Proof.
  induction data as [|[k' v] data IH]; cbn [list_to_map dict_get foldr]; [done|].
  cbn. rewrite lookup_insert. destruct (decide (k' = k)); [done|exact IH].
Qed.

Lemma keys_under_dict data : keys_under (dict_keys data) (list_to_map data).
Proof.
  intros c [v Hv]. rewrite list_to_map_dict_get in Hv.
  induction data as [|[k' v'] data IH]; cbn in *; [done|].
  destruct (decide (k' = c)) as [->|]; [left|right; auto].
Qed.

Lemma keys_under_read cols x : keys_under cols (read_row cols x).
Proof.
  intros c [v Hv]. rewrite read_row_lookup in Hv. by case_bool_decide.
Qed.

Lemma keys_under_mono cols cols' r :
  (forall c, c ∈ cols -> c ∈ cols') -> keys_under cols r -> keys_under cols' r.
Proof. intros H Hr c Hc. auto. Qed.

Lemma table_in_memory_keys old data :
  Forall (keys_under (columns (table_in_memory old data))) (rows (table_in_memory old data)).
Proof.
  destruct old as [f|]; cbn.
  - apply Forall_app. split.
    + apply Forall_fmap, Forall_forall. intros x _. cbn.
      eapply keys_under_mono; [|apply keys_under_read].
      intros c Hc. apply elem_of_app. by left.
    + constructor; [|constructor]. intros c Hc.
      apply keys_under_dict in Hc. apply elem_of_app.
      destruct (decide (c ∈ xcolumns f)); [by left|right].
      apply list_elem_of_filter. done.
  - constructor; [|constructor]. apply keys_under_dict.
Qed.

Lemma table_in_memory_no_list old data :
  dict_get "History" data = None ->
  Forall no_list (rows (table_in_memory old data)).
Proof.
  intros Hd.
  assert (no_list (list_to_map data)) as Hn.
  { intros h. by rewrite list_to_map_dict_get, Hd. }
  destruct old as [f|]; cbn.
  - apply Forall_app. split; [apply Forall_no_list_read|by constructor].
  - by constructor.
Qed.

Lemma has_column_spec c df : has_column c df = true <-> c ∈ columns df.
Proof. unfold has_column. apply bool_decide_eq_true. Qed.

Lemma fill_row_fresh r : r !! "History" = None -> fill_row r = <["History" := VList []]> r.
Proof. intros H. unfold fill_row. by rewrite H. Qed.

(** The table that [save_memo_record] writes for a record without History. *)
Lemma ensure_history_table old data :
  dict_get "History" data = None ->
  let t := table_in_memory old data in
  ensure_history t =
  Ok (Frame (if has_column "History" t then columns t else columns t ++ ["History"])
            (fill_row <$> rows t)).
Proof.
  intros Hd t. unfold ensure_history.
  destruct (has_column "History" t) eqn:Hc.
  - by rewrite apply_history_no_list by by apply table_in_memory_no_list.
  - unfold set_column. rewrite Hc. do 2 f_equal.
    apply Forall_fmap_ext, Forall_forall. intros r Hr.
    symmetry. apply fill_row_fresh.
    pose proof (table_in_memory_keys old data) as Hk.
    rewrite Forall_forall in Hk. specialize (Hk r Hr "History").
    destruct (r !! "History") eqn:E; [|done].
    exfalso. assert (has_column "History" t = true) as Ht.
    { apply has_column_spec. apply Hk. eauto. }
    congruence.
Qed.

Lemma plain_text_reread s :
  plain_text s = true -> reread (VStr s) = Some (VStr s).
Proof.
  unfold plain_text. rewrite !andb_true_iff, !negb_true_iff.
  intros [[[[[[He Hn] Hp] _] _] _] _].
  unfold reread. cbn. rewrite He. unfold formula_text. rewrite Hp. cbn.
  by rewrite He, Hn.
Qed.

Lemma reread_read x v :
  plain_cell x = true -> read_cell x = Some v -> reread v = Some v.
Proof.
  destruct x as [s|s|d]; cbn; [|done|by intros _ [= <-]].
  destruct (Py.is_empty s) eqn:E; [done|].
  destruct (na_text s) eqn:En; [done|]. cbn.
  intros Hp [= <-]. by apply plain_text_reread.
Qed.

Lemma plain_sheet_cell f x c y :
  plain_sheet f = true -> x ∈ xrows f -> x !! c = Some y -> plain_cell y = true.
Proof.
  unfold plain_sheet. rewrite !andb_true_iff. intros [_ Hr] Hx Hc.
  rewrite forallb_forall in Hr. apply list_elem_of_In in Hx.
  specialize (Hr x Hx). rewrite forallb_forall in Hr.
  apply (Hr (c, y)). apply list_elem_of_In. by apply elem_of_map_to_list.
Qed.

Lemma str_history_not_empty h : Py.is_empty (str_history h) = false.
Proof. done. Qed.

Lemma reread_list h : reread (VList h) = Some (VStr (str_history h)).
Proof. done. Qed.

(** Writing a row whose keys are columns and reading it back. *)
Lemma read_write_row cols r :
  keys_under cols r -> read_row cols (write_row cols r) = omap reread r.
Proof.
  intros Hk. apply map_eq. intros c.
  rewrite read_row_lookup, write_row_lookup, lookup_omap.
  case_bool_decide as Hc; [by destruct (r !! c)|].
  destruct (r !! c) eqn:E; [|done]. destruct Hc. apply Hk. eauto.
Qed.

Lemma fill_row_keys cols r :
  "History" ∈ cols -> keys_under cols r -> keys_under cols (fill_row r).
Proof.
  intros Hh Hk c. unfold fill_row. rewrite lookup_insert.
  destruct (decide ("History" = c)) as [<-|]; [done|]. apply Hk.
Qed.

Lemma reread_fill_read cols x :
  (forall c y, x !! c = Some y -> plain_cell y = true) ->
  omap reread (fill_row (read_row cols x)) = fill_stored (read_row cols x).
Proof.
  intros Hx. apply map_eq. intros c. unfold fill_row, fill_stored.
  rewrite lookup_omap, !lookup_insert.
  destruct (decide ("History" = c)) as [<-|].
  - cbn. rewrite read_row_lookup. case_bool_decide; [|done].
    destruct (x !! "History") as [y|] eqn:Ey; cbn; [|done].
    destruct (read_cell y) eqn:E; cbn; [|done].
    apply reread_read in E; [done|by eapply Hx].
  - rewrite read_row_lookup. case_bool_decide; [|done].
    destruct (x !! c) as [y|] eqn:Ey; cbn; [|done].
    destruct (read_cell y) eqn:E; cbn; [|done].
    apply reread_read in E; [done|by eapply Hx].
Qed.

(** On a workbook of plain cells, writing back what was loaded changes only
    the missing History cells. *)
Lemma stored_rows_plain w :
  plain_records w = true ->
  (omap reread ∘ fill_row) <$> stored_rows w = fill_stored <$> stored_rows w.
Proof.
  unfold plain_records, stored_rows. destruct (records w) as [f|]; [|done].
  intros Hp. cbn [sheet_to_frame rows]. rewrite <- !list_fmap_compose.
  apply Forall_fmap_ext, Forall_forall. intros x Hx. cbn.
  apply reread_fill_read. intros c y. by eapply plain_sheet_cell.
Qed.

Lemma reread_fill_dict data :
  dict_get "History" data = None ->
  omap reread (fill_row (list_to_map data)) = stored_record data.
Proof.
  intros Hd. apply map_eq. intros c. unfold fill_row, stored_record.
  rewrite lookup_omap, !lookup_insert.
  destruct (decide ("History" = c)) as [<-|].
  - by rewrite list_to_map_dict_get, Hd.
  - by rewrite lookup_omap.
Qed.

Lemma to_excel_ok e df s :
  can_write e memo_file = true ->
  to_excel e df s = (Ok (), State (World (Some (frame_to_sheet df)) (files (disk s))) (shown s)).
Proof. intros H. unfold to_excel. by rewrite H. Qed.

Lemma to_excel_inv e df s r s' :
  to_excel e df s = (r, s') ->
  (r = Ok () /\ s' = State (World (Some (frame_to_sheet df)) (files (disk s))) (shown s))
  \/ (r = Raise (OSError memo_file) /\ s' = s).
Proof. unfold to_excel. destruct (can_write e memo_file); intros [= <- <-]; auto. Qed.

(** The stored rows after a successful [save_memo_record]. *)
Lemma save_memo_record_stored e data s :
  can_write e memo_file = true ->
  dict_get "History" data = None ->
  exists f',
    save_memo_record e data s = (Ok (), State (World (Some f') (files (disk s))) (shown s))
    /\ rows (sheet_to_frame f')
       = ((omap reread ∘ fill_row) <$> stored_rows (disk s)) ++ [stored_record data].
Proof.
  intros Hw Hd. rewrite save_memo_record_run, ensure_history_table by done.
  rewrite to_excel_ok by done. eexists. split; [done|].
  set (t := table_in_memory (records (disk s)) data).
  set (cols := if has_column "History" t then columns t else columns t ++ ["History"]).
  assert ("History" ∈ cols) as Hh.
  { subst cols. destruct (has_column "History" t) eqn:E.
    - by apply has_column_spec.
    - apply elem_of_app. right. by left. }
  assert (forall c, c ∈ columns t -> c ∈ cols) as Hsub.
  { subst cols. intros c Hc. destruct (has_column "History" t); [done|].
    apply elem_of_app. by left. }
  cbn [sheet_to_frame frame_to_sheet rows columns xrows xcolumns].
  rewrite <- !list_fmap_compose.
  transitivity ((omap reread ∘ fill_row) <$> rows t).
  { apply Forall_fmap_ext. pose proof (table_in_memory_keys (records (disk s)) data) as Hk.
    eapply Forall_impl; [exact Hk|]. intros r Hr. cbn.
    apply read_write_row. apply fill_row_keys; [done|].
    eapply keys_under_mono; [exact Hsub|exact Hr]. }
  subst t. unfold stored_rows, table_in_memory.
  destruct (records (disk s)) as [f|]; cbn [rows concat frame_of_dict sheet_to_frame].
  - rewrite fmap_app. f_equal. cbn. by rewrite reread_fill_dict.
  - cbn. by rewrite reread_fill_dict.
Qed.

(** ** Reasoning about runs *)

Lemma bind_run {A B} (m : M A) (k : A -> M B) s :
  (m ≫= k) s = match m s with
               | (Ok a, s') => k a s'
               | (Raise e, s') => (Raise e, s')
               end.
Proof. done. Qed.

Lemma bind_inv {A B} (m : M A) (k : A -> M B) s r s' :
  (m ≫= k) s = (r, s') ->
  (exists a s1, m s = (Ok a, s1) /\ k a s1 = (r, s'))
  \/ (exists e, m s = (Raise e, s') /\ r = Raise e).
Proof.
  rewrite bind_run. destruct (m s) as [[a|e] s1]; [left|right]; [by eauto|].
  inversion H; subst. eauto.
Qed.

Section Keeps.
Context (P : state -> state -> Prop) `{!Reflexive P} `{!Transitive P}.

Lemma keeps_ret {A} (a : A) : keeps P (mret a).
Proof. intros s r s' [= <- <-]. reflexivity. Qed.

Lemma keeps_raise {A} e : keeps P (raise e : M A).
Proof. intros s r s' [= <- <-]. reflexivity. Qed.

Lemma keeps_lift {A} (x : result A) : keeps P (lift x).
Proof. intros s r s' [= <- <-]. reflexivity. Qed.

Lemma keeps_bind {A B} (m : M A) (k : A -> M B) :
  keeps P m -> (forall a, keeps P (k a)) -> keeps P (m ≫= k).
Proof.
  intros Hm Hk s r s' [(a & s1 & H1 & H2)|(e & H1 & _)]%bind_inv.
  - etransitivity; [eapply Hm, H1|eapply Hk, H2].
  - eapply Hm, H1.
Qed.

Lemma keeps_if {A} (b : bool) (m1 m2 : M A) :
  keeps P m1 -> keeps P m2 -> keeps P (if b then m1 else m2).
Proof. by destruct b. Qed.

Lemma keeps_records_exist : keeps P records_exist.
Proof. intros s r s' [= <- <-]. reflexivity. Qed.

Lemma keeps_read_excel : keeps P read_excel.
Proof.
  intros s r s'. unfold read_excel.
  destruct (records (disk s)); intros [= <- <-]; reflexivity.
Qed.

Lemma keeps_path_exists p : keeps P (path_exists p).
Proof. intros s r s' [= <- <-]. reflexivity. Qed.

Lemma keeps_read_file p : keeps P (read_file p).
Proof.
  intros s r s'. unfold read_file.
  destruct (files (disk s) !! _); intros [= <- <-]; reflexivity.
Qed.
End Keeps.

Create HintDb keeps.

#[local] Hint Resolve keeps_ret keeps_raise keeps_lift keeps_bind keeps_if
  keeps_records_exist keeps_read_excel keeps_path_exists keeps_read_file : keeps.

#[local] Instance same_disk_refl : Reflexive same_disk.
Proof. by intros s. Qed.
#[local] Instance same_disk_trans : Transitive same_disk.
Proof. unfold same_disk. intros s1 s2 s3 H1 H2. congruence. Qed.
#[local] Instance same_records_refl : Reflexive same_records.
Proof. by intros s. Qed.
#[local] Instance same_records_trans : Transitive same_records.
Proof. unfold same_records. intros s1 s2 s3 H1 H2. congruence. Qed.
#[local] Instance more_shown_refl : Reflexive more_shown.
Proof. intros s. exists []. by rewrite app_nil_r. Qed.
#[local] Instance more_shown_trans : Transitive more_shown.
Proof.
  intros s1 s2 s3 [r1 H1] [r2 H2]. exists (r1 ++ r2).
  by rewrite H2, H1, app_assoc.
Qed.

Lemma show_same_disk m : keeps same_disk (show m).
Proof. by intros s r s' [= <- <-]. Qed.

Lemma show_more_shown m : keeps more_shown (show m).
Proof. intros s r s' [= <- <-]. by exists [m]. Qed.

Lemma write_file_same_records e p c : keeps same_records (write_file e p c).
Proof.
  intros s r s'. unfold write_file. destruct (can_write e p); by intros [= <- <-].
Qed.

Lemma write_file_more_shown e p c : keeps more_shown (write_file e p c).
Proof.
  intros s r s'. unfold write_file.
  destruct (can_write e p); intros [= <- <-]; exists []; cbn; by rewrite app_nil_r.
Qed.

Lemma to_excel_more_shown e df : keeps more_shown (to_excel e df).
Proof.
  intros s r s'. unfold to_excel.
  destruct (can_write e memo_file); intros [= <- <-]; exists []; cbn; by rewrite app_nil_r.
Qed.

#[local] Hint Resolve show_same_disk show_more_shown write_file_same_records
  write_file_more_shown to_excel_more_shown : keeps.

Ltac keeps_auto :=
  repeat first
    [ progress intros
    | apply keeps_bind
    | apply keeps_if
    | solve [eauto with keeps typeclass_instances]
    | match goal with
      | |- keeps _ (match ?x with _ => _ end) => destruct x
      end ].

Lemma first_existing_same_disk sel exts fallback :
  keeps same_disk (first_existing sel exts fallback).
Proof.
  induction exts as [|ext exts IH]; cbn [first_existing]; keeps_auto.
Qed.

Lemma show_scanned_same_disk e sel : keeps same_disk (show_scanned e sel).
Proof.
  unfold show_scanned. pose proof first_existing_same_disk. keeps_auto.
Qed.

Lemma show_history_same_disk i df : keeps same_disk (show_history i df).
Proof. unfold show_history. keeps_auto. Qed.

Lemma stamp_same_records e p n : keeps same_records (stamp_pdf_with_memo_number e p n).
Proof. unfold stamp_pdf_with_memo_number. keeps_auto. Qed.

Lemma stamp_more_shown e p n : keeps more_shown (stamp_pdf_with_memo_number e p n).
Proof. unfold stamp_pdf_with_memo_number. keeps_auto. Qed.

Lemma save_memo_record_more_shown e data : keeps more_shown (save_memo_record e data).
Proof. unfold save_memo_record. keeps_auto. Qed.

Lemma save_memo_handler_more_shown e n f : keeps more_shown (save_memo_handler e n f).
Proof.
  unfold save_memo_handler.
  pose proof stamp_more_shown. pose proof save_memo_record_more_shown. keeps_auto.
Qed.

(** ** The reference number *)

Lemma log_memo_page_shows e f s r s' :
  log_memo_page e f s = (r, s') ->
  exists rest,
    shown s' = shown s ++ Info ("Generated Memo Number: " +:+ generate_memo_number e) :: rest.
Proof.
  unfold log_memo_page. rewrite bind_run. cbn [show]. intros H.
  assert (keeps more_shown
            (if save_pressed f then save_memo_handler e (generate_memo_number e) f
             else mret ())) as Hk.
  { destruct (save_pressed f); [apply save_memo_handler_more_shown|].
    apply keeps_ret, _. }
  apply Hk in H as [rest H]. cbn in H. exists rest. by rewrite H, <- app_assoc.
Qed.

(** C10. [generate_memo_number] returns NITT/DG/<year>/<id> where <year> is
    the year of the clock and <id> is the first four decimal digits of the
    integer of a fresh version-4 UUID, always four digits long; the number a
    run of the Log Memo page shows is this one whatever the stored records
    are. *)
Theorem generate_memo_number_form (e : env) :
  0 <= urandom e < 2 ^ 128 ->
  exists id,
    generate_memo_number e = "NITT/DG/" +:+ Py.str_int (t_year (now e)) +:+ "/" +:+ id
    /\ id = Py.take 4 (Py.str_int (uuid4_int (urandom e)))
    /\ String.length id = 4%nat
    /\ Py.all_digits id = true
    /\ forall f w, exists rest,
         shown (snd (script e (LogMemo f) (State w [])))
         = Info ("Generated Memo Number: " +:+ generate_memo_number e) :: rest.
Proof.
  intros [Hr _]. eexists. split; [reflexivity|]. split; [reflexivity|].
  pose proof (uuid4_int_lower _ Hr) as Hu.
  assert ((uuid4_int (urandom e) <? 0) = false) as Hneg by (apply Z.ltb_ge; lia).
  unfold Py.str_int. rewrite Hneg. unfold Py.str_nat.
  split; [|split].
  - apply take_length.
    pose proof (digits_from_four (Z.to_nat (Z.log2 (uuid4_int (urandom e))))
                  (uuid4_int (urandom e)) EmptyString) as Hl.
    cbn [String.length] in Hl. apply Hl; [lia|].
    assert (78 <= Z.log2 (uuid4_int (urandom e))).
    { apply Z.log2_le_pow2; lia. }
    lia.
  - apply take_all_digits, digits_from_all_digits; [lia|done].
  - intros f w. unfold script. rewrite bind_run, load_memos_ok.
    destruct (log_memo_page e f (State w [])) as [r s'] eqn:E.
    apply log_memo_page_shows in E as [rest E]. exists rest. exact E.
Qed.

Lemma generate_memo_number_form_witness :
  0 <= urandom env_example < 2 ^ 128 /\
  exists id,
    generate_memo_number env_example
    = "NITT/DG/" +:+ Py.str_int (t_year (now env_example)) +:+ "/" +:+ id
    /\ id = Py.take 4 (Py.str_int (uuid4_int (urandom env_example)))
    /\ String.length id = 4%nat
    /\ Py.all_digits id = true
    /\ forall f w, exists rest,
         shown (snd (script env_example (LogMemo f) (State w [])))
         = Info ("Generated Memo Number: " +:+ generate_memo_number env_example) :: rest.
Proof.
  assert (0 <= urandom env_example < 2 ^ 128) as H by (cbn; lia).
  split; [exact H|]. exact (generate_memo_number_form env_example H).
Defined.

(** ** Logging a memo *)

(** C8. When Save Memo Record is pressed with a title that is empty once
    stripped, or with no uploaded file, the run writes nothing: the stored
    state is what it was and the page shows an error message. *)
Theorem save_rejected_writes_nothing (e : env) (f : log_form) (w : world) :
  save_pressed f = true ->
  Py.strip (title f) = "" \/ uploaded_file f = None ->
  exists m,
    (m = "Please enter memo title." \/ m = "Please upload scanned memo.")
    /\ script e (LogMemo f) (State w [])
       = (Ok (), State w [Info ("Generated Memo Number: " +:+ generate_memo_number e);
                          Error m]).
Proof.
  intros Hp Hg. unfold script. rewrite bind_run, load_memos_ok.
  unfold log_memo_page. rewrite bind_run. cbn [show]. rewrite Hp.
  unfold save_memo_handler.
  destruct (Py.is_empty (Py.strip (title f))) eqn:Ht.
  - eexists. split; [by left|]. done.
  - destruct Hg as [Hg|Hg]; [by rewrite Hg in Ht|].
    rewrite Hg. eexists. split; [by right|]. done.
Qed.

Lemma save_rejected_writes_nothing_witness :
  exists m,
    (m = "Please enter memo title." \/ m = "Please upload scanned memo.")
    /\ script env_example (LogMemo form_blank_title) (State (World None ∅) [])
       = (Ok (), State (World None ∅)
                   [Info ("Generated Memo Number: " +:+ generate_memo_number env_example);
                    Error m]).
Proof.
  apply (save_rejected_writes_nothing env_example form_blank_title (World None ∅)).
  - reflexivity.
  - left. vm_compute. reflexivity.
Defined.

Lemma memo_data_no_history n f : dict_get "History" (memo_data n f) = None.
Proof. unfold memo_data. by destruct (who f). Qed.

Lemma memo_data_status n f : dict_get "Status" (memo_data n f) = Some (VStr "Pending").
Proof. unfold memo_data. by destruct (who f). Qed.

Lemma memo_data_location n f :
  dict_get "Current Location" (memo_data n f) = Some (VStr (destination (who f))).
Proof. unfold memo_data. by destruct (who f). Qed.

Lemma save_memo_record_inv e data s s' :
  dict_get "History" data = None ->
  save_memo_record e data s = (Ok (), s') ->
  exists f',
    s' = State (World (Some f') (files (disk s))) (shown s)
    /\ rows (sheet_to_frame f')
       = ((omap reread ∘ fill_row) <$> stored_rows (disk s)) ++ [stored_record data].
Proof.
  intros Hd H.
  assert (can_write e memo_file = true) as Hw.
  { rewrite save_memo_record_run, ensure_history_table in H by done.
    unfold to_excel in H. by destruct (can_write e memo_file). }
  destruct (save_memo_record_stored e data s Hw Hd) as (f' & E & Hrows).
  exists f'. split; [congruence|done].
Qed.

Lemma stored_record_lookup data c :
  c ≠ "History" -> stored_record data !! c = dict_get c data ≫= reread.
Proof.
  intros Hc. unfold stored_record.
  rewrite lookup_insert_ne by done. by rewrite lookup_omap, list_to_map_dict_get.
Qed.

Lemma save_memo_record_writes e data s s' :
  save_memo_record e data s = (Ok (), s') ->
  exists df,
    ensure_history (table_in_memory (records (disk s)) data) = Ok df
    /\ records (disk s') = Some (frame_to_sheet df).
Proof.
  rewrite save_memo_record_run.
  destruct (ensure_history _) as [df|ex]; [|done]. intros H.
  apply to_excel_inv in H as [[_ ->]|[? _]]; [|done]. by exists df.
Qed.

Lemma table_in_memory_rows old data :
  rows (table_in_memory old data)
  = match old with Some f => rows (sheet_to_frame f) | None => [] end
    ++ [list_to_map data].
Proof. by destruct old. Qed.



(** ** The claim about [save_memo_record], as worded and as the code has it *)




(** ** Forward / Reply on the table *)

Lemma set_at_rows i c v df : rows (set_at i c v df) = alter (insert c v) i (rows df).
Proof. done. Qed.

Lemma forward_table_rows e i f df :
  rows (forward_table e i f df) = alter (forwarded_row e f) i (rows df).
Proof.
  unfold forward_table. rewrite !set_at_rows.
  unfold cell_at, forwarded_row, history_of.
  rewrite !list_alter_alter_eq.
  apply list_alter_ext; [|done]. intros r' Hr'. rewrite Hr'. done.
Qed.

Lemma forward_table_row e i f df r :
  rows df !! i = Some r ->
  rows (forward_table e i f df) !! i = Some (forwarded_row e f r).
Proof.
  intros H. rewrite forward_table_rows, list_lookup_alter_eq. by rewrite H.
Qed.

Lemma forward_table_other e i j f df :
  j ≠ i -> rows (forward_table e i f df) !! j = rows df !! j.
Proof. intros H. rewrite forward_table_rows. by apply list_lookup_alter_ne. Qed.

(** C2, as worded, fails: forwarding a pending memo changes its History and
    its Status (and its Current Location). *)
Lemma forward_changes_three_fields :
  ~ single_field_update env_example 0 forward_example table_example.
Proof.
  intros [c H].
  specialize (H row_example _ eq_refl
                (forward_table_row env_example 0 forward_example table_example
                   row_example eq_refl)).
  destruct (decide ("History" = c)) as [<-|Hc].
  - specialize (H "Status"). vm_compute in H. by specialize (H ltac:(discriminate)).
  - specialize (H "History" Hc). vm_compute in H. discriminate H.
Qed.

(** C2, amended. Forward/Reply changes three fields of the selected record
    and nothing else: History gets the new entry (alone when it held no
    list), Current Location becomes the recipient, Status becomes
    "Forwarded to <recipient>"; every other field of the record and every
    other record are as before. *)
Theorem forward_updates_three_fields (e : env) (i : nat) (f : preview_form)
    (df : DataFrame) (r : gmap string value) :
  rows df !! i = Some r ->
  exists r',
    rows (forward_table e i f df) !! i = Some r'
    /\ r' !! "History" = Some (VList (history_of r ++ [new_entry e f]))
    /\ r' !! "Current Location" = Some (VStr (forward_to f))
    /\ r' !! "Status" = Some (VStr ("Forwarded to " +:+ forward_to f))
    /\ (forall c, c ≠ "History" -> c ≠ "Current Location" -> c ≠ "Status" ->
                  r' !! c = r !! c)
    /\ (forall j, j ≠ i -> rows (forward_table e i f df) !! j = rows df !! j).
Proof.
  intros Hr. exists (forwarded_row e f r).
  split; [by apply forward_table_row|]. unfold forwarded_row.
  split; [by simplify_map_eq|]. split; [by simplify_map_eq|].
  split; [by simplify_map_eq|]. split.
  - intros c H1 H2 H3. by rewrite !lookup_insert_ne.
  - intros j Hj. by apply forward_table_other.
Qed.

Lemma forward_updates_three_fields_witness :
  exists r',
    rows (forward_table env_example 0 forward_example table_example) !! 0%nat = Some r'
    /\ r' !! "History" = Some (VList ([] ++ [new_entry env_example forward_example]))
    /\ r' !! "Current Location" = Some (VStr "SA")
    /\ r' !! "Status" = Some (VStr "Forwarded to SA")
    /\ (forall c, c ≠ "History" -> c ≠ "Current Location" -> c ≠ "Status" ->
                  r' !! c = row_example !! c)
    /\ (forall j, j ≠ 0%nat ->
                  rows (forward_table env_example 0 forward_example table_example) !! j
                  = rows table_example !! j).
Proof.
  exact (forward_updates_three_fields env_example 0 forward_example table_example
           row_example eq_refl).
Defined.

(** ** Forward / Reply as a run *)

Lemma write_file_inv e p c s r s' :
  write_file e p c s = (r, s') ->
  records (disk s') = records (disk s) /\ shown s' = shown s.
Proof. unfold write_file. destruct (can_write e p); by intros [= <- <-]. Qed.

(** The handler either raises before the workbook is touched, or writes the
    changed table over it. *)
Lemma forward_handler_inv e i f df s r s' :
  forward_handler e i f df s = (r, s') ->
  (r = Ok (forward_table e i f df)
   /\ records (disk s') = Some (frame_to_sheet (forward_table e i f df)))
  \/ ((exists ex, r = Raise ex) /\ records (disk s') = records (disk s)).
Proof.
  unfold forward_handler. intros H.
  apply bind_inv in H as [([] & s1 & H1 & H)|(ex & H1 & ->)]; cycle 1.
  { right. split; [by eauto|]. destruct (has_column "History" df); by inversion H1. }
  assert (s1 = s) as -> by (destruct (has_column "History" df); by inversion H1).
  apply bind_inv in H as [([] & s2 & H2 & H)|(ex & H2 & ->)]; cycle 1.
  { right. split; [by eauto|].
    destruct (uploaded_attachment f); [|by inversion H2].
    by apply write_file_inv in H2 as [? _]. }
  assert (records (disk s2) = records (disk s)) as Hs2.
  { destruct (uploaded_attachment f); [|by inversion H2].
    by apply write_file_inv in H2 as [? _]. }
  apply bind_inv in H as [([] & s3 & H3 & H)|(ex & H3 & ->)]; cycle 1.
  { right. split; [by eauto|].
    apply to_excel_inv in H3 as [[? _]|[_ ->]]; [done|exact Hs2]. }
  apply to_excel_inv in H3 as [[_ ->]|[? _]]; [|done].
  cbn in H. inversion H; subst. by left.
Qed.


Lemma frame_to_sheet_rows df :
  xrows (frame_to_sheet df) = write_row (columns df) <$> rows df.
Proof. done. Qed.

(** C6. Both writers overwrite the workbook with their whole table in
    memory.  After a Forward/Reply that returns, the workbook is the sheet of
    the table loaded at the start of the run with the selected memo's fields
    updated, whatever the workbook holds at the time of the write: it has as
    many rows as the loaded table and, but for the selected one, each is the
    loaded row as written.  After a [save_memo_record] that returns, the
    workbook is the sheet of the table it built. *)
Theorem writers_overwrite_with_table_in_memory (e : env) (i : nat) (f : preview_form)
    (df_memos df' : DataFrame) (s s' : state) :
  is_Some (rows df_memos !! i) ->
  forward_handler e i f df_memos s = (Ok df', s') ->
  records (disk s') = Some (frame_to_sheet (forward_table e i f df_memos))
  /\ (forall f', records (disk s') = Some f' ->
        length (xrows f') = length (rows df_memos)
        /\ forall j, j ≠ i ->
             xrows f' !! j
             = write_row (columns (forward_table e i f df_memos)) <$> rows df_memos !! j)
  /\ (forall data t t',
        save_memo_record e data t = (Ok (), t') ->
        exists df,
          ensure_history (table_in_memory (records (disk t)) data) = Ok df
          /\ records (disk t') = Some (frame_to_sheet df)).
Proof.
  intros _ H. apply forward_handler_inv in H as [[_ H]|[[ex ?] _]]; [|done].
  split; [exact H|]. split.
  - intros f' Hf'. rewrite H in Hf'. injection Hf' as <-.
    rewrite frame_to_sheet_rows, length_fmap, forward_table_rows, length_alter.
    split; [done|]. intros j Hj.
    rewrite list_lookup_fmap, list_lookup_alter_ne by done. done.
  - intros data t t'. apply save_memo_record_writes.
Qed.

Lemma writers_overwrite_with_table_in_memory_witness :
  let s' := snd (forward_handler env_example 0 forward_example table_example
                   (State (World (Some sheet_two_rows) ∅) [])) in
  records (disk s')
  = Some (frame_to_sheet (forward_table env_example 0 forward_example table_example))
  /\ (forall f', records (disk s') = Some f' ->
        length (xrows f') = length (rows table_example)
        /\ forall j, j ≠ 0%nat ->
             xrows f' !! j
             = write_row (columns (forward_table env_example 0 forward_example table_example))
                 <$> rows table_example !! j)
  /\ (forall data t t',
        save_memo_record env_example data t = (Ok (), t') ->
        exists df,
          ensure_history (table_in_memory (records (disk t)) data) = Ok df
          /\ records (disk t') = Some (frame_to_sheet df)).
Proof.
  apply (writers_overwrite_with_table_in_memory env_example 0 forward_example table_example
           (forward_table env_example 0 forward_example table_example)
           (State (World (Some sheet_two_rows) ∅) [])).
  - by eexists.
  - vm_compute. reflexivity.
Defined.

(** ** What the Preview page can do to the records *)

Lemma preview_page_records e df f s r s' :
  preview_page e df f s = (r, s') ->
  records (disk s') = records (disk s)
  \/ exists i,
       first_index (is_memo (selected_memo f)) (rows df) = Some i
       /\ forward_pressed f = true
       /\ records (disk s') = Some (frame_to_sheet (forward_table e i f df)).
Proof.
  unfold preview_page. destruct (frame_empty df).
  { intros H. left. apply show_same_disk in H. by rewrite H. }
  intros H.
  apply bind_inv in H as [([] & s1 & H1 & H)|(ex & H1 & ->)]; cycle 1.
  { left. destruct (has_column "Memo Number" df); by inversion H1. }
  assert (s1 = s) as -> by (destruct (has_column "Memo Number" df); by inversion H1).
  destruct (first_index _ _) as [i|]; [|left; by inversion H].
  apply bind_inv in H as [([] & s2 & H2 & H)|(ex & H2 & ->)]; cycle 1.
  { left. apply show_scanned_same_disk in H2. by rewrite H2. }
  apply show_scanned_same_disk in H2.
  apply bind_inv in H as [(df' & s3 & H3 & H)|(ex & H3 & ->)].
  - apply show_history_same_disk in H. rewrite H.
    destruct (forward_pressed f) eqn:Hp.
    + apply forward_handler_inv in H3 as [[_ H3]|[_ H3]].
      * right. exists i. by rewrite H3.
      * left. by rewrite H3, H2.
    + inversion H3; subst. left. by rewrite H2.
  - destruct (forward_pressed f) eqn:Hp; [|by inversion H3].
    apply forward_handler_inv in H3 as [[? _]|[_ H3]]; [done|].
    left. by rewrite H3, H2.
Qed.

Lemma preview_run_records e f w :
  let s' := snd (script e (PreviewForward f) (State w [])) in
  records (disk s') = records w
  \/ exists i,
       first_index (is_memo (selected_memo f)) (rows (loaded w)) = Some i
       /\ forward_pressed f = true
       /\ records (disk s') = Some (frame_to_sheet (forward_table e i f (loaded w))).
Proof.
  cbn zeta. unfold script. rewrite bind_run, load_memos_ok. cbn [disk].
  fold (loaded w).
  destruct (preview_page e (loaded w) f (State w [])) as [r s'] eqn:E.
  apply preview_page_records in E. exact E.
Qed.

(** C4. The page that its title (line 248) and the comment above it (line
    245) call "Preview, Forward & Approve" approves nothing: whatever the
    widgets hold, a run of it leaves the records as they are or, when
    Forward/Reply is pressed, writes the loaded table in which the selected
    memo has Status "Forwarded to <recipient>" and the recipient as Current
    Location.  No run of the page stores anything else. *)
Theorem preview_page_only_forwards (e : env) (f : preview_form) (w : world) :
  let s' := snd (script e (PreviewForward f) (State w [])) in
  records (disk s') = records w
  \/ exists i r,
       forward_pressed f = true
       /\ first_index (is_memo (selected_memo f)) (rows (loaded w)) = Some i
       /\ records (disk s') = Some (frame_to_sheet (forward_table e i f (loaded w)))
       /\ rows (forward_table e i f (loaded w)) !! i = Some r
       /\ r !! "Status" = Some (VStr ("Forwarded to " +:+ forward_to f))
       /\ r !! "Current Location" = Some (VStr (forward_to f)).
Proof.
  destruct (preview_run_records e f w) as [H|(i & Hi & Hp & H)]; [by left|].
  right. exists i.
  assert (exists r0, rows (loaded w) !! i = Some r0) as [r0 Hr0].
  { clear -Hi. revert i Hi. induction (rows (loaded w)) as [|r rs IH]; intros i Hi; [done|].
    cbn in Hi. destruct (is_memo _ r).
    - injection Hi as <-. by eexists.
    - destruct (first_index _ rs) as [j|] eqn:E; [|done]. injection Hi as <-.
      apply (IH j eq_refl). }
  exists (forwarded_row e f r0).
  split; [done|]. split; [done|]. split; [done|].
  split; [by apply forward_table_row|]. unfold forwarded_row.
  split; by simplify_map_eq.
Qed.

(** ** What loading guarantees about History *)

Lemma sheet_rows_fresh f r :
  "History" ∉ xcolumns f -> r ∈ rows (sheet_to_frame f) -> r !! "History" = None.
Proof.
  intros Hc Hr. cbn in Hr. apply list_elem_of_fmap in Hr as (x & -> & _).
  rewrite read_row_lookup. by rewrite bool_decide_false.
Qed.

Lemma loaded_table_rows f : rows (loaded_table f) = fill_row <$> rows (sheet_to_frame f).
Proof.
  unfold loaded_table. destruct (has_column "History" (sheet_to_frame f)) eqn:E; [done|].
  cbn [set_column rows]. apply Forall_fmap_ext, Forall_forall. intros r Hr.
  symmetry. apply fill_row_fresh. eapply sheet_rows_fresh; [|exact Hr].
  intros Hc. apply (has_column_spec "History" (sheet_to_frame f)) in Hc. congruence.
Qed.

Lemma loaded_table_history f : "History" ∈ columns (loaded_table f).
Proof.
  unfold loaded_table. destruct (has_column "History" (sheet_to_frame f)) eqn:E.
  - by apply has_column_spec in E.
  - unfold set_column. rewrite E. cbn. apply elem_of_app. right. by left.
Qed.

Lemma loaded_rows w : rows (loaded w) = fill_row <$> stored_rows w.
Proof.
  unfold loaded, stored_rows. destruct (records w); [apply loaded_table_rows|done].
Qed.

Lemma apply_history_filled rs rs' :
  apply_history rs = Ok rs' -> Forall (fun r => is_Some (r !! "History")) rs'.
Proof.
  revert rs'. induction rs as [|r rs IH]; intros rs'; cbn [apply_history].
  - intros [= <-]. constructor.
  - destruct (fill_history _) as [v|]; [|done].
    destruct (apply_history rs) as [rs''|]; [|done]. intros [= <-].
    constructor; [|by apply IH]. rewrite lookup_insert_eq. by eexists.
Qed.

Lemma ensure_history_filled t df :
  ensure_history t = Ok df ->
  "History" ∈ columns df /\ Forall (fun r => is_Some (r !! "History")) (rows df).
Proof.
  unfold ensure_history. destruct (has_column "History" t) eqn:E.
  - destruct (apply_history (rows t)) as [rs|] eqn:Ha; [|done]. intros [= <-].
    split; [by apply has_column_spec in E|]. by apply apply_history_filled in Ha.
  - intros [= <-]. unfold set_column. rewrite E. cbn. split.
    + apply elem_of_app. right. by left.
    + apply Forall_fmap, Forall_forall. intros r _. cbn.
      rewrite lookup_insert_eq. by eexists.
Qed.

Lemma ensure_location_column df : "Current Location" ∈ columns (ensure_location df).
Proof.
  unfold ensure_location.
  destruct (has_column "Current Location" df) eqn:E; [by apply has_column_spec in E|].
  destruct (has_column "To" df); unfold copy_column, set_column; rewrite E; cbn;
    apply elem_of_app; right; by left.
Qed.

(** C7, as worded, fails: a History cell that holds text is loaded as that
    text, not as a list. *)
Lemma load_memos_keeps_text : ~ loads_lists (World (Some sheet_logged) ∅).
Proof.
  intros H. specialize (H _ _ (load_memos_ok _)). cbn [disk records] in H.
  destruct (H (fill_row (read_row (xcolumns sheet_logged)
                 {["Memo Number" := XText "NITT/DG/2024/3022"; "Status" := XText "Pending";
                   "Current Location" := XText "TA"; "History" := XText "[]"]})))
    as [h Hh].
  { rewrite loaded_table_rows. cbn. left. }
  vm_compute in Hh. discriminate Hh.
Qed.

Lemma fill_history_default x v :
  fill_history x = Ok v -> v = default (VList []) x.
Proof.
  destruct x as [[s|d|h]|]; cbn; try by intros [= <-].
  destruct (length h =? 1)%nat; [by intros [= <-]|done].
Qed.

Lemma apply_history_rows rs rs' :
  apply_history rs = Ok rs' -> rs' = fill_row <$> rs.
Proof.
  revert rs'. induction rs as [|r rs IH]; intros rs'; cbn [apply_history].
  - by intros [= <-].
  - destruct (fill_history _) as [v|] eqn:Ev; [|done].
    destruct (apply_history rs) as [rs''|]; [|done]. intros [= <-].
    cbn. unfold fill_row at 1. by rewrite (fill_history_default _ _ Ev), (IH rs'').
Qed.

(** The rows [save_memo_record] writes: those read and the record, each with
    its History cell filled when it was missing. *)
Lemma ensure_history_rows old data df :
  ensure_history (table_in_memory old data) = Ok df ->
  rows df = fill_row <$> rows (table_in_memory old data).
Proof.
  set (t := table_in_memory old data). unfold ensure_history.
  destruct (has_column "History" t) eqn:Hc.
  - destruct (apply_history (rows t)) as [rs|] eqn:Ha; [|done]. intros [= <-].
    by apply apply_history_rows.
  - intros [= <-]. unfold set_column. rewrite Hc. cbn [rows].
    apply Forall_fmap_ext, Forall_forall. intros r Hr.
    symmetry. apply fill_row_fresh.
    pose proof (table_in_memory_keys old data) as Hk.
    rewrite Forall_forall in Hk. specialize (Hk r Hr "History").
    destruct (r !! "History") eqn:E; [|done].
    exfalso. assert (has_column "History" t = true) as Ht.
    { apply has_column_spec. apply Hk. eauto. }
    congruence.
Qed.

(** C7, amended. [load_memos] always returns and changes nothing; for an
    existing workbook the table has a History column and its rows are the
    stored rows with every missing History cell replaced by an empty list and
    every other cell, History or not, as read.  The table a returning
    [save_memo_record] writes is the one it built in memory, passed through
    the same filling: it has a History column, and its rows are the stored
    rows followed by the record, with every missing History cell replaced by
    an empty list and every other cell as it was read or given.  The
    dashboard's table has a Current Location column. *)
Theorem history_and_location_columns_ensured (e : env) (w : world) (msgs : list message) :
  (exists df,
     load_memos (State w msgs) = (Ok df, State w msgs)
     /\ (is_Some (records w) -> "History" ∈ columns df)
     /\ rows df = (fun r => <["History" := default (VList []) (r !! "History")]> r)
                  <$> stored_rows w
     /\ Forall (fun r => is_Some (r !! "History")) (rows df))
  /\ (forall data s s',
        save_memo_record e data s = (Ok (), s') ->
        exists df,
          ensure_history (table_in_memory (records (disk s)) data) = Ok df
          /\ records (disk s') = Some (frame_to_sheet df)
          /\ "History" ∈ columns df
          /\ rows df = (fun r => <["History" := default (VList []) (r !! "History")]> r)
                       <$> (stored_rows (disk s) ++ [list_to_map data])
          /\ Forall (fun r => is_Some (r !! "History")) (rows df))
  /\ (forall df, "Current Location" ∈ columns (ensure_location df)).
Proof.
  split; [|split].
  - exists (loaded w). split; [apply (load_memos_ok (State w msgs))|].
    split; [|split].
    + intros [f Hf]. unfold loaded. rewrite Hf. apply loaded_table_history.
    + apply loaded_rows.
    + rewrite loaded_rows. apply Forall_fmap, Forall_forall. intros r _. cbn.
      unfold fill_row. rewrite lookup_insert_eq. by eexists.
  - intros data s s' H. apply save_memo_record_writes in H as (df & Hdf & H).
    exists df. split; [done|]. split; [done|].
    destruct (ensure_history_filled _ _ Hdf) as [Hc Hf].
    split; [done|]. split; [|done].
    rewrite (ensure_history_rows _ _ _ Hdf), table_in_memory_rows.
    unfold stored_rows. by destruct (records (disk s)).
  - apply ensure_location_column.
Qed.

Lemma history_and_location_columns_ensured_witness :
  (exists df,
     load_memos (State (World (Some sheet_without_history) ∅) [])
     = (Ok df, State (World (Some sheet_without_history) ∅) [])
     /\ "History" ∈ columns df
     /\ Forall (fun r => is_Some (r !! "History")) (rows df))
  /\ (exists df,
        records (disk (snd (save_memo_record env_example
                              (memo_data "NITT/DG/2024/3022" form_example)
                              (State (World (Some sheet_without_history) ∅) []))))
        = Some (frame_to_sheet df)
        /\ "History" ∈ columns df
        /\ rows df = (fun r => <["History" := default (VList []) (r !! "History")]> r)
                     <$> (stored_rows (World (Some sheet_without_history) ∅)
                          ++ [list_to_map (memo_data "NITT/DG/2024/3022" form_example)])
        /\ Forall (fun r => is_Some (r !! "History")) (rows df)).
Proof.
  destruct (history_and_location_columns_ensured env_example
              (World (Some sheet_without_history) ∅) []) as (Hl & Hs & _).
  split.
  - destruct Hl as (df & H1 & H2 & _ & H4). exists df.
    split; [exact H1|]. split; [apply H2; by eexists|exact H4].
  - destruct (Hs (memo_data "NITT/DG/2024/3022" form_example)
                 (State (World (Some sheet_without_history) ∅) [])
                 (snd (save_memo_record env_example
                         (memo_data "NITT/DG/2024/3022" form_example)
                         (State (World (Some sheet_without_history) ∅) []))))
      as (df & _ & H).
    + vm_compute. reflexivity.
    + exists df. exact H.
Defined.

(** ** History across runs *)

Lemma set_at_columns_new i c v df : c ∈ columns (set_at i c v df).
Proof.
  unfold set_at. cbn. destruct (has_column c df) eqn:E.
  - by apply has_column_spec in E.
  - apply elem_of_app. right. by left.
Qed.

Lemma set_at_columns_old i c v df c' : c' ∈ columns df -> c' ∈ columns (set_at i c v df).
Proof.
  intros H. unfold set_at. cbn. destruct (has_column c df); [done|].
  apply elem_of_app. by left.
Qed.

Lemma forward_table_history_column e i f df : "History" ∈ columns (forward_table e i f df).
Proof.
  unfold forward_table. do 2 apply set_at_columns_old. apply set_at_columns_new.
Qed.

Lemma history_of_fill_row r : no_list r -> history_of (fill_row r) = [].
Proof.
  intros H. unfold history_of, fill_row. rewrite lookup_insert_eq.
  destruct (r !! "History") as [[s|d|h]|] eqn:E; cbn; try done. by destruct (H h).
Qed.

Lemma stored_rows_no_list w : Forall no_list (stored_rows w).
Proof.
  unfold stored_rows. destruct (records w); [apply Forall_no_list_read|constructor].
Qed.

Lemma first_index_lookup {p} {rs : list (gmap string value)} {i} :
  first_index p rs = Some i -> exists r, rs !! i = Some r /\ p r = true.
Proof.
  revert i. induction rs as [|r rs IH]; intros i Hi; [done|].
  cbn in Hi. destruct (p r) eqn:E.
  - injection Hi as <-. by exists r.
  - destruct (first_index p rs) as [j|]; [|done]. injection Hi as <-.
    by apply IH.
Qed.

Lemma preview_page_forwarded e df f s s' :
  preview_page e df f s = (Ok (), s') ->
  forward_pressed f = true ->
  frame_empty df = false ->
  exists i,
    first_index (is_memo (selected_memo f)) (rows df) = Some i
    /\ records (disk s') = Some (frame_to_sheet (forward_table e i f df)).
Proof.
  unfold preview_page. intros H Hp Hne. rewrite Hne in H.
  apply bind_inv in H as [([] & s1 & _ & H)|(ex & _ & ?)]; [|done].
  destruct (first_index _ _) as [i|]; [|by inversion H].
  apply bind_inv in H as [([] & s2 & _ & H)|(ex & _ & ?)]; [|done].
  apply bind_inv in H as [(df' & s3 & H3 & H)|(ex & _ & ?)]; [|done].
  rewrite Hp in H3.
  apply show_history_same_disk in H.
  apply forward_handler_inv in H3 as [[_ H3]|[[ex ?] _]]; [|done].
  exists i. split; [done|]. by rewrite H, H3.
Qed.

(** Whatever History the workbook held for the memo, a Forward/Reply run
    that returns leaves it with the text of a list of one entry, the new
    one. *)
Lemma forward_run_stores_one_entry e f w s' :
  script e (PreviewForward f) (State w []) = (Ok (), s') ->
  forward_pressed f = true ->
  frame_empty (loaded w) = false ->
  exists i,
    first_index (is_memo (selected_memo f)) (rows (loaded w)) = Some i
    /\ stored_rows (disk s') !! i ≫= (fun r => r !! "History")
       = Some (VStr (str_history [new_entry e f])).
Proof.
  unfold script. rewrite bind_run, load_memos_ok. cbn [disk]. fold (loaded w).
  intros H Hp Hne.
  destruct (preview_page_forwarded _ _ _ _ _ H Hp Hne) as (i & Hi & Hr).
  exists i. split; [done|].
  destruct (first_index_lookup Hi) as (r0 & Hr0 & _).
  unfold stored_rows. rewrite Hr. cbn [sheet_to_frame frame_to_sheet rows xrows xcolumns columns].
  rewrite !list_lookup_fmap, (forward_table_row _ _ _ _ _ Hr0). cbn.
  rewrite read_row_lookup, write_row_lookup.
  rewrite bool_decide_true by apply forward_table_history_column.
  unfold forwarded_row. rewrite lookup_insert_ne, lookup_insert_ne, lookup_insert_eq by done.
  rewrite loaded_rows in Hr0. apply list_lookup_fmap_Some in Hr0 as (x & -> & Hx).
  rewrite history_of_fill_row; [done|].
  pose proof (stored_rows_no_list w) as Hn. rewrite Forall_forall in Hn.
  apply Hn. by eapply list_elem_of_lookup_2.
Qed.

(** C3. A memo is logged, forwarded to SA and then forwarded to Registry;
    the three runs return.  After the first forward the stored History is the
    text of the one-entry list; after the second it is the text of the list
    holding the second entry alone: the first entry is gone. *)
Theorem second_forward_drops_first_entry :
  fst run_logged = Ok () /\ fst run_forwarded = Ok () /\ fst run_forwarded_again = Ok ()
  /\ stored_history (snd run_logged) 0 = Some (VStr "[]")
  /\ stored_history (snd run_forwarded) 0
     = Some (VStr (str_history [new_entry env_example forward_example]))
  /\ stored_history (snd run_forwarded_again) 0
     = Some (VStr (str_history [new_entry env_later forward_again]))
  /\ stored_history (snd run_forwarded_again) 0
     ≠ Some (VStr (str_history [new_entry env_example forward_example;
                                new_entry env_later forward_again])).
Proof.
  repeat split; try (vm_compute; reflexivity).
  vm_compute. discriminate.
Qed.

(** ** Failing writes *)

Lemma roa_refl {A} (m : M A) : raises_or_agrees m m.
Proof. intros s. by right. Qed.

Lemma roa_bind {A B} (m m' : M A) (k k' : A -> M B) :
  raises_or_agrees m m' -> (forall a, raises_or_agrees (k a) (k' a)) ->
  raises_or_agrees (m ≫= k) (m' ≫= k').
Proof.
  intros Hm Hk s. rewrite !bind_run.
  destruct (Hm s) as [(ex & s' & E)|E].
  - left. rewrite E. by eauto.
  - rewrite <- E. destruct (m s) as [[a|ex] s1]; [apply Hk|by right].
Qed.

Lemma roa_if {A} (b : bool) (m1 m1' m2 m2' : M A) :
  raises_or_agrees m1 m1' -> raises_or_agrees m2 m2' ->
  raises_or_agrees (if b then m1 else m2) (if b then m1' else m2').
Proof. by destruct b. Qed.

Lemma roa_write_file e p c :
  raises_or_agrees (write_file e p c) (write_file (reliable e) p c).
Proof.
  intros s. unfold write_file. cbn. destruct (can_write e p); [by right|left; by eauto].
Qed.

Lemma roa_to_excel e df : raises_or_agrees (to_excel e df) (to_excel (reliable e) df).
Proof.
  intros s. unfold to_excel. cbn.
  destruct (can_write e memo_file); [by right|left; by eauto].
Qed.

Lemma roa_save_memo_record e data :
  raises_or_agrees (save_memo_record e data) (save_memo_record (reliable e) data).
Proof.
  unfold save_memo_record.
  repeat (apply roa_bind; [try apply roa_refl|intros]). apply roa_to_excel.
Qed.

Lemma roa_stamp e p n :
  raises_or_agrees (stamp_pdf_with_memo_number e p n)
                   (stamp_pdf_with_memo_number (reliable e) p n).
Proof.
  unfold stamp_pdf_with_memo_number. cbn [can_open reliable].
  apply roa_bind; [apply roa_refl|intros doc].
  case_bool_decide; [apply roa_refl|].
  apply roa_bind; [apply roa_write_file|intros; apply roa_refl].
Qed.

Lemma roa_save_memo_handler e n f :
  raises_or_agrees (save_memo_handler e n f) (save_memo_handler (reliable e) n f).
Proof.
  unfold save_memo_handler.
  destruct (Py.is_empty _); [apply roa_refl|].
  destruct (uploaded_file f) as [up|]; [|apply roa_refl].
  apply roa_bind; [apply roa_write_file|intros _].
  apply roa_bind; [case_bool_decide; [apply roa_stamp|apply roa_refl]|intros _].
  apply roa_bind; [apply roa_save_memo_record|intros; apply roa_refl].
Qed.

Lemma roa_forward_handler e i f df :
  raises_or_agrees (forward_handler e i f df) (forward_handler (reliable e) i f df).
Proof.
  unfold forward_handler.
  apply roa_bind; [apply roa_refl|intros _].
  apply roa_bind; [destruct (uploaded_attachment f); [apply roa_write_file|apply roa_refl]|].
  intros _. apply roa_bind; [apply roa_to_excel|intros; apply roa_refl].
Qed.

Lemma roa_script e p : raises_or_agrees (script e p) (script (reliable e) p).
Proof.
  unfold script. apply roa_bind; [apply roa_refl|intros df].
  destruct p as [f|f].
  - unfold log_memo_page.
    change (generate_memo_number (reliable e)) with (generate_memo_number e).
    apply roa_bind; [apply roa_refl|intros _].
    apply roa_if; [apply roa_save_memo_handler|apply roa_refl].
  - unfold preview_page. destruct (frame_empty df); [apply roa_refl|].
    apply roa_bind; [apply roa_refl|intros _].
    destruct (first_index _ _) as [i|]; [|apply roa_refl].
    apply roa_bind; [apply roa_refl|intros _].
    apply roa_bind; [|intros; apply roa_refl].
    apply roa_if; [apply roa_forward_handler|apply roa_refl].
Qed.

Lemma strip_not_empty t : Py.strip t ≠ "" -> Py.is_empty (Py.strip t) = false.
Proof. by destruct (Py.strip t). Qed.

Lemma save_memo_record_ok e data s s' :
  save_memo_record e data s = (Ok (), s') ->
  can_write e memo_file = true
  /\ exists df,
       ensure_history (table_in_memory (records (disk s)) data) = Ok df
       /\ s' = State (World (Some (frame_to_sheet df)) (files (disk s))) (shown s).
Proof.
  rewrite save_memo_record_run.
  destruct (ensure_history _) as [df|ex]; [|done]. unfold to_excel.
  destruct (can_write e memo_file); [|done]. intros [= <-]. split; [done|]. by exists df.
Qed.

(** A Save that got past its checks raises, or has written the scanned memo,
    its stamped copy when it is a PDF, and the workbook. *)
Lemma save_memo_handler_done e n f up s :
  Py.strip (title f) ≠ "" ->
  uploaded_file f = Some up ->
  (exists ex s', save_memo_handler e n f s = (Raise ex, s'))
  \/ (exists df,
        can_write e (scanned_path n up) = true
        /\ can_write e memo_file = true
        /\ ensure_history (table_in_memory (records (disk s)) (memo_data n f)) = Ok df
        /\ save_memo_handler e n f s
           = (Ok (), State (World (Some (frame_to_sheet df))
                                  (saved_files n up (files (disk s))))
                           (shown s ++ [Success "Memo logged successfully!"]))).
Proof.
  intros Ht Hu.
  destruct (save_memo_handler e n f s) as [[[]|ex] s'] eqn:H; [right|left; by eauto].
  unfold save_memo_handler in H. rewrite (strip_not_empty _ Ht), Hu in H.
  fold (scanned_path n up) in H. fold (is_pdf up) in H.
  apply bind_inv in H as [([] & s1 & H1 & H)|(? & _ & ?)]; [|done].
  unfold write_file in H1.
  destruct (can_write e (scanned_path n up)) eqn:Hws; [|done]. injection H1 as <-.
  apply bind_inv in H as [(p & s2 & H2 & H)|(? & _ & ?)]; [|done].
  apply bind_inv in H as [([] & s3 & H3 & H)|(? & _ & ?)]; [|done].
  injection H as <-.
  apply save_memo_record_ok in H3 as (Hwr & df & Hdf & ->).
  exists df. split; [done|]. split; [done|].
  assert (records (disk s2) = records (disk s)
          /\ files (disk s2) = saved_files n up (files (disk s))
          /\ shown s2 = shown s) as (Hr & Hf & Hm).
  { unfold saved_files. destruct (is_pdf up).
    - unfold stamp_pdf_with_memo_number in H2.
      apply bind_inv in H2 as [(doc & s4 & H4 & H2)|(? & _ & ?)]; [|done].
      destruct (can_open e (scanned_path n up)); [|done].
      unfold read_file in H4. cbn [disk files] in H4.
      rewrite lookup_insert_eq in H4. injection H4 as <- <-.
      set (stamped := Py.replace ".pdf" "_stamped.pdf" (scanned_path n up)) in *.
      destruct (bool_decide (stamped = scanned_path n up)); [done|].
      apply bind_inv in H2 as [([] & s5 & H5 & H2)|(? & _ & ?)]; [|done].
      unfold write_file in H5. destruct (can_write e stamped); [|done].
      injection H5 as <-. by inversion H2.
    - by inversion H2. }
  split; [by rewrite <- Hr|]. cbn [disk shown files records]. by rewrite Hf, Hm.
Qed.

(** A Forward/Reply raises, or has written its attachment and the workbook. *)
Lemma forward_handler_done e i f df s :
  (exists ex s', forward_handler e i f df s = (Raise ex, s'))
  \/ (can_write e memo_file = true
      /\ (forall up, uploaded_attachment f = Some up -> can_write e (attach_path f up) = true)
      /\ forward_handler e i f df s
         = (Ok (forward_table e i f df),
            State (World (Some (frame_to_sheet (forward_table e i f df)))
                         (attached_files f (files (disk s))))
                  (shown s ++ [forwarded_message f]))).
Proof.
  destruct (forward_handler e i f df s) as [[r|ex] s'] eqn:H; [right|left; by eauto].
  unfold forward_handler in H.
  apply bind_inv in H as [([] & s1 & H1 & H)|(? & _ & ?)]; [|done].
  assert (s1 = s) as -> by (destruct (has_column "History" df); by inversion H1).
  apply bind_inv in H as [([] & s2 & H2 & H)|(? & _ & ?)]; [|done].
  apply bind_inv in H as [([] & s3 & H3 & H)|(? & _ & ?)]; [|done].
  unfold to_excel in H3. destruct (can_write e memo_file); [|done].
  injection H3 as <-. injection H as <- <-. split; [done|].
  unfold attached_files, forwarded_message.
  destruct (uploaded_attachment f) as [up|].
  - fold (attach_path f up) in H2. unfold write_file in H2.
    destruct (can_write e (attach_path f up)) eqn:Hwa; [|done]. injection H2 as <-.
    split; [by intros ? [= <-]|done].
  - injection H2 as <-. split; [done|done].
Qed.

(** The export of the dashboard raises, or has written its file. *)
Lemma download_handler_done e df s :
  (exists ex s', download_handler e df s = (Raise ex, s'))
  \/ (can_write e "filtered_memos.csv" = true
      /\ download_handler e df s
         = (Ok (),
            State (World (records (disk s))
                         (<[Py.normpath "filtered_memos.csv" := Csv df]> (files (disk s))))
                  (shown s ++ [Success "Filtered records saved as 'filtered_memos.csv'."]))).
Proof.
  unfold download_handler. rewrite bind_run. unfold write_file.
  destruct (can_write e "filtered_memos.csv"); [right|left; by eauto]. done.
Qed.

(** C5. Nothing catches a failed write and nothing retries it.  From every
    stored state and for every page, a run either lets an exception escape or
    ends exactly as the run in which every write goes through.  And each of
    the three operations that write either lets an exception escape or, with
    every file it names writable, ends with all its writes done: a Save with
    the scanned memo (and the stamped copy of a PDF) stored and the workbook
    replaced by the table it built, a Forward/Reply with the attachment stored
    and the workbook replaced by the changed table, the dashboard's export
    with the file of the filtered table stored. *)
Theorem writes_complete_or_exception_escapes (e : env) :
  (forall p s,
     (exists ex s', script e p s = (Raise ex, s'))
     \/ (script e p s = script (reliable e) p s /\ fst (script e p s) = Ok ()))
  /\ (forall n f up s,
        Py.strip (title f) ≠ "" ->
        uploaded_file f = Some up ->
        (exists ex s', save_memo_handler e n f s = (Raise ex, s'))
        \/ (exists df,
              can_write e (scanned_path n up) = true
              /\ can_write e memo_file = true
              /\ ensure_history (table_in_memory (records (disk s)) (memo_data n f)) = Ok df
              /\ save_memo_handler e n f s
                 = (Ok (), State (World (Some (frame_to_sheet df))
                                        (saved_files n up (files (disk s))))
                                 (shown s ++ [Success "Memo logged successfully!"]))))
  /\ (forall i f df s,
        (exists ex s', forward_handler e i f df s = (Raise ex, s'))
        \/ (can_write e memo_file = true
            /\ (forall up, uploaded_attachment f = Some up ->
                           can_write e (attach_path f up) = true)
            /\ forward_handler e i f df s
               = (Ok (forward_table e i f df),
                  State (World (Some (frame_to_sheet (forward_table e i f df)))
                               (attached_files f (files (disk s))))
                        (shown s ++ [forwarded_message f]))))
  /\ (forall df s,
        (exists ex s', download_handler e df s = (Raise ex, s'))
        \/ (can_write e "filtered_memos.csv" = true
            /\ download_handler e df s
               = (Ok (),
                  State (World (records (disk s))
                               (<[Py.normpath "filtered_memos.csv" := Csv df]>
                                  (files (disk s))))
                        (shown s
                         ++ [Success "Filtered records saved as 'filtered_memos.csv'."])))).
Proof.
  split; [|split; [|split]].
  - intros p s. destruct (roa_script e p s) as [H|H]; [by left|].
    destruct (script e p s) as [[[]|ex] s'] eqn:E.
    + right. by rewrite <- H.
    + left. by eauto.
  - intros n f up s. apply save_memo_handler_done.
  - intros i f df s. apply forward_handler_done.
  - intros df s. apply download_handler_done.
Qed.

Lemma writes_complete_or_exception_escapes_witness :
  exists df,
    ensure_history (table_in_memory None (memo_data "NITT/DG/2024/3022" form_image)) = Ok df
    /\ save_memo_handler env_example "NITT/DG/2024/3022" form_image (State (World None ∅) [])
       = (Ok (), State (World (Some (frame_to_sheet df))
                              (saved_files "NITT/DG/2024/3022" (Upload "scan.png" []) ∅))
                       [Success "Memo logged successfully!"]).
Proof.
  destruct (writes_complete_or_exception_escapes env_example) as (_ & H & _).
  destruct (H "NITT/DG/2024/3022" form_image (Upload "scan.png" []) (State (World None ∅) []))
    as [(ex & s' & E)|(df & _ & _ & Hdf & E)].
  - by vm_compute.
  - reflexivity.
  - vm_compute in E. discriminate E.
  - exists df. split; [exact Hdf|exact E].
Defined.

(** A Save whose workbook cannot be written: the exception escapes after the
    scanned file and its stamped copy were stored, and they stay. *)
Example failed_save_keeps_scanned_file :
  let run := script env_records_locked (LogMemo form_example) (State (World None ∅) []) in
  fst run = Raise (OSError memo_file)
  /\ records (disk (snd run)) = None
  /\ files (disk (snd run)) !! "memos/scanned/NITT-DG-2024-3022.pdf" = Some (Raw [])
  /\ is_Some (files (disk (snd run)) !! "memos/scanned/NITT-DG-2024-3022_stamped.pdf").
Proof. vm_compute. repeat split. by eexists. Qed.

(** * Further properties of the script *)

(** ** The id of a reference number *)

Lemma digits_from_head fuel : forall n acc,
  1 <= n < 2 ^ (Z.of_nat fuel + 1) ->
  exists c rest, Py.digits_from fuel n acc = String c rest /\ c ≠ "0"%char.
Proof.
  induction fuel as [|fuel IH]; intros n acc Hn; cbn [Py.digits_from].
  - assert (n = 1) as -> by (cbn in Hn; lia). by eexists _, _.
  - destruct (Z.ltb_spec n 10) as [Hlt|Hge].
    + exists (Py.digit (n mod 10)), acc. split; [done|].
      rewrite Z.mod_small by lia. intros E.
      apply (f_equal Py.ord) in E. unfold Py.digit in E.
      rewrite ord_chr in E by lia.
      change (Py.ord "0"%char) with 48 in E. lia.
    + apply IH. split; [apply Z.div_le_lower_bound; lia|].
      apply Z.div_lt_upper_bound; [lia|].
      replace (Z.of_nat (S fuel) + 1) with (Z.of_nat fuel + 1 + 1) in Hn by lia.
      rewrite Z.pow_add_r in Hn by lia. lia.
Qed.

Lemma str_int_head n :
  1 <= n -> exists c rest, Py.str_int n = String c rest /\ c ≠ "0"%char.
Proof.
  intros Hn. unfold Py.str_int.
  replace (n <? 0) with false by (symmetry; apply Z.ltb_ge; lia).
  unfold Py.str_nat. apply digits_from_head.
  split; [done|]. rewrite Z2Nat.id by apply Z.log2_nonneg.
  apply Z.log2_spec. lia.
Qed.

(** X1. The id of a reference number never starts with 0: it is the head
    of the decimal text of a positive integer.  The sample 0001 of the
    docstring cannot come out, and a year has at most 9000 numbers. *)
Theorem memo_id_has_no_leading_zero (e : env) :
  0 <= urandom e ->
  exists c rest,
    Py.take 4 (Py.str_int (uuid4_int (urandom e))) = String c rest
    /\ c ≠ "0"%char
    /\ generate_memo_number e
       = "NITT/DG/" +:+ Py.str_int (t_year (now e)) +:+ "/" +:+ String c rest.
Proof.
  intros Hr. pose proof (uuid4_int_lower _ Hr) as Hu.
  destruct (str_int_head (uuid4_int (urandom e))) as (c & rest & E & Hc); [lia|].
  exists c, (Py.take 3 rest). unfold generate_memo_number. rewrite E. cbn [Py.take].
  done.
Qed.

Lemma memo_id_has_no_leading_zero_witness :
  exists c rest,
    Py.take 4 (Py.str_int (uuid4_int (urandom env_later))) = String c rest
    /\ c ≠ "0"%char
    /\ generate_memo_number env_later
       = "NITT/DG/" +:+ Py.str_int (t_year (now env_later)) +:+ "/" +:+ String c rest.
Proof.
  apply (memo_id_has_no_leading_zero env_later). cbn. lia.
Defined.

(** ** Edge cases of the Preview page *)

Lemma frame_empty_no_rows df : rows df = [] -> frame_empty df = true.
Proof. unfold frame_empty. by intros ->. Qed.

(** X2. With no workbook, or with a workbook that has no rows, a run of the
    Preview page only says that there is nothing to preview: it returns and
    leaves every stored file as it was, whatever the widgets hold, the
    Forward/Reply button included. *)
Theorem preview_of_empty_records (e : env) (f : preview_form) (w : world) :
  stored_rows w = [] ->
  script e (PreviewForward f) (State w []) = (Ok (), State w [Info "No memos to preview."]).
Proof.
  intros Hw. unfold script. rewrite bind_run, load_memos_ok. cbn [disk].
  fold (loaded w). unfold preview_page.
  rewrite frame_empty_no_rows; [done|]. by rewrite loaded_rows, Hw.
Qed.

Lemma preview_of_empty_records_witness :
  script env_example (PreviewForward forward_example) (State (World None ∅) [])
  = (Ok (), State (World None ∅) [Info "No memos to preview."]).
Proof.
  apply (preview_of_empty_records env_example forward_example (World None ∅)).
  reflexivity.
Defined.

Lemma first_index_none p (rs : list (gmap string value)) :
  first_index p rs = None <-> Forall (fun r => p r = false) rs.
Proof.
  induction rs as [|r rs IH]; cbn [first_index]; [by split; [constructor|]|].
  destruct (p r) eqn:E.
  - split; [done|]. intros H. apply Forall_cons in H as [H _]. congruence.
  - destruct (first_index p rs) as [j|]; cbn.
    + split; [done|]. intros H. apply Forall_cons in H as [_ H]. by apply IH in H.
    + split; [|done]. intros _. constructor; [done|]. by apply IH.
Qed.

Lemma loaded_not_empty w : stored_rows w ≠ [] -> frame_empty (loaded w) = false.
Proof.
  intros Hne. unfold frame_empty. rewrite loaded_rows.
  destruct (stored_rows w) as [|r rs] eqn:E; [done|]. cbn.
  unfold loaded. unfold stored_rows in E. destruct (records w) as [x|]; [|done].
  pose proof (loaded_table_history x) as Hh.
  by destruct (columns (loaded_table x)); [apply elem_of_nil in Hh|].
Qed.

Lemma is_memo_fill_row sel r : is_memo sel (fill_row r) = is_memo sel r.
Proof. unfold is_memo, fill_row. by rewrite lookup_insert_ne. Qed.

Lemma loaded_columns_memo_number w :
  has_column "Memo Number" (loaded w)
  = match records w with
    | Some f => bool_decide ("Memo Number" ∈ xcolumns f)
    | None => false
    end.
Proof.
  unfold loaded. destruct (records w) as [f|]; [|done].
  unfold loaded_table.
  destruct (has_column "History" (sheet_to_frame f)) eqn:E; [done|].
  unfold has_column, set_column. fold (has_column "History" (sheet_to_frame f)).
  rewrite E. cbn. apply bool_decide_ext. rewrite elem_of_app, list_elem_of_singleton.
  split; [intros [?|?]; [done|discriminate]|by left].
Qed.

(** X3. A selection that matches no stored row stops the Preview page with
    an IndexError before anything is written or shown; a missing (NaN)
    selection matches no row.  A workbook with rows but no Memo Number column
    stops it with a KeyError. *)
Theorem preview_of_unknown_memo (e : env) (f : preview_form) (w : world) (x : xlsx) :
  records w = Some x ->
  stored_rows w ≠ [] ->
  ("Memo Number" ∉ xcolumns x ->
     script e (PreviewForward f) (State w []) = (Raise (KeyError "Memo Number"), State w []))
  /\ ("Memo Number" ∈ xcolumns x ->
      (selected_memo f = None
       \/ forall r, r ∈ stored_rows w -> r !! "Memo Number" ≠ selected_memo f) ->
      script e (PreviewForward f) (State w []) = (Raise IndexError, State w [])).
Proof.
  intros Hx Hne. unfold script. rewrite bind_run, load_memos_ok. cbn [disk].
  fold (loaded w). unfold preview_page.
  rewrite (loaded_not_empty w Hne).
  rewrite bind_run, loaded_columns_memo_number, Hx. split.
  - intros Hc. by rewrite bool_decide_false.
  - intros Hc Hsel. rewrite bool_decide_true by done. cbn.
    assert (first_index (is_memo (selected_memo f)) (rows (loaded w)) = None) as ->; [|done].
    apply first_index_none. rewrite loaded_rows. apply Forall_fmap, Forall_forall.
    intros r Hr. cbn. rewrite is_memo_fill_row. unfold is_memo.
    destruct Hsel as [->|Hsel]; [by destruct (r !! "Memo Number")|].
    specialize (Hsel r Hr).
    destruct (r !! "Memo Number") as [a|], (selected_memo f) as [b|]; try done.
    apply bool_decide_false. congruence.
Qed.

Lemma preview_of_unknown_memo_witness :
  script env_example (PreviewForward forward_unknown) (State (World (Some sheet_logged) ∅) [])
  = (Raise IndexError, State (World (Some sheet_logged) ∅) []).
Proof.
  destruct (preview_of_unknown_memo env_example forward_unknown
              (World (Some sheet_logged) ∅) sheet_logged) as [_ H].
  - reflexivity.
  - intros E. apply (f_equal length) in E. vm_compute in E. discriminate E.
  - apply H.
    + vm_compute. by left.
    + right. intros r Hr. unfold stored_rows in Hr. cbn [records] in Hr.
      unfold sheet_to_frame, sheet_logged in Hr. cbn [rows xrows xcolumns] in Hr.
      rewrite list_fmap_singleton in Hr.
      apply list_elem_of_singleton in Hr. rewrite Hr. vm_compute. discriminate.
Defined.

(** ** Which record a Forward/Reply reaches *)

Lemma first_index_least p (rs : list (gmap string value)) i :
  first_index p rs = Some i ->
  forall j r, (j < i)%nat -> rs !! j = Some r -> p r = false.
Proof.
  revert i. induction rs as [|r0 rs IH]; intros i Hi j r Hj Hr; [done|].
  cbn in Hi. destruct (p r0) eqn:E.
  - injection Hi as <-. lia.
  - destruct (first_index p rs) as [k|] eqn:Ek; [|done]. injection Hi as <-.
    destruct j as [|j]; cbn in Hr.
    + by injection Hr as <-.
    + apply (IH k eq_refl j r); [lia|done].
Qed.

(** X4. Memo numbers are not unique keys.  Forward/Reply reaches the first
    row that carries the selected number: no earlier row carries it, and every
    other row, a later one with the same number included, is left as it
    was. *)
Theorem forward_reaches_first_match (e : env) (f : preview_form) (df : DataFrame) (i : nat) :
  first_index (is_memo (selected_memo f)) (rows df) = Some i ->
  (exists r v, rows df !! i = Some r
               /\ r !! "Memo Number" = Some v /\ selected_memo f = Some v)
  /\ (forall j r, (j < i)%nat -> rows df !! j = Some r ->
                  is_memo (selected_memo f) r = false)
  /\ (forall j, j ≠ i -> rows (forward_table e i f df) !! j = rows df !! j).
Proof.
  intros Hi. split; [|split].
  - destruct (first_index_lookup Hi) as (r & Hr & Hm). unfold is_memo in Hm.
    destruct (r !! "Memo Number") as [a|] eqn:Ea; [|done].
    destruct (selected_memo f) as [b|]; [|done].
    apply bool_decide_eq_true in Hm as ->. by exists r, b.
  - by apply first_index_least.
  - intros j Hj. by apply forward_table_other.
Qed.

Lemma forward_reaches_first_match_witness :
  (exists r v, rows table_duplicates !! 1%nat = Some r
               /\ r !! "Memo Number" = Some v /\ selected_memo forward_example = Some v)
  /\ (forall j r, (j < 1)%nat -> rows table_duplicates !! j = Some r ->
                  is_memo (selected_memo forward_example) r = false)
  /\ (forall j, j ≠ 1%nat ->
        rows (forward_table env_example 1 forward_example table_duplicates) !! j
        = rows table_duplicates !! j).
Proof.
  apply (forward_reaches_first_match env_example forward_example table_duplicates 1).
  vm_compute. reflexivity.
Defined.

(** ** What later runs see of a history *)

Lemma loaded_history_not_shown w i :
  match cell_at i "History" (loaded w) with
  | Some (VList (_ :: _)) => False
  | _ => True
  end.
Proof.
  unfold cell_at. rewrite loaded_rows, list_lookup_fmap.
  destruct (stored_rows w !! i) as [r|] eqn:E; cbn; [|done].
  pose proof (stored_rows_no_list w) as Hn. rewrite Forall_forall in Hn.
  assert (no_list r) as Hr by (apply Hn; by eapply list_elem_of_lookup_2).
  unfold fill_row. rewrite lookup_insert_eq.
  destruct (r !! "History") as [[s|d|h]|] eqn:Eh; cbn; try done. by destruct (Hr h).
Qed.

(** X6. A run of the Preview page in which Forward/Reply is not pressed
    never lists a history: when it returns for a stored memo, its last
    message is that no history is available yet, although the memo may have
    been forwarded before; and it leaves every stored file as it was. *)
Theorem preview_never_lists_stored_history (e : env) (f : preview_form) (w : world)
    (s' : state) :
  forward_pressed f = false ->
  stored_rows w ≠ [] ->
  script e (PreviewForward f) (State w []) = (Ok (), s') ->
  last (shown s') = Some (Info "No history available for this memo yet.")
  /\ disk s' = w.
Proof.
  intros Hp Hne. unfold script. rewrite bind_run, load_memos_ok. cbn [disk].
  fold (loaded w). unfold preview_page. rewrite (loaded_not_empty w Hne).
  intros H.
  apply bind_inv in H as [([] & s1 & H1 & H)|(ex & _ & ?)]; [|done].
  assert (s1 = State w []) as ->
    by (destruct (has_column "Memo Number" (loaded w)); by inversion H1).
  destruct (first_index _ _) as [i|]; [|by inversion H].
  apply bind_inv in H as [([] & s2 & H2 & H)|(ex & _ & ?)]; [|done].
  apply show_scanned_same_disk in H2. unfold same_disk in H2. cbn in H2.
  rewrite Hp in H. rewrite bind_run in H. cbn [mret M_ret] in H.
  unfold show_history in H. rewrite bind_run in H.
  destruct (has_column "History" (loaded w)); [|by inversion H]. cbn [mret M_ret] in H.
  pose proof (loaded_history_not_shown w i) as Hc.
  destruct (cell_at i "History" (loaded w)) as [[s|d|[|x h]]|]; try done;
    inversion H; subst; cbn; by rewrite last_snoc.
Qed.

Lemma preview_never_lists_stored_history_witness :
  last (shown (snd (script env_later
                      (PreviewForward (PreviewForm (Some (VStr "NITT/DG/2024/3022"))
                                                   "SA" "" None false))
                      (State (disk (snd run_forwarded)) []))))
  = Some (Info "No history available for this memo yet.")
  /\ disk (snd (script env_later
                  (PreviewForward (PreviewForm (Some (VStr "NITT/DG/2024/3022"))
                                               "SA" "" None false))
                  (State (disk (snd run_forwarded)) [])))
     = disk (snd run_forwarded).
Proof.
  apply (preview_never_lists_stored_history env_later
           (PreviewForm (Some (VStr "NITT/DG/2024/3022")) "SA" "" None false)
           (disk (snd run_forwarded))).
  - reflexivity.
  - intros E. apply (f_equal length) in E. vm_compute in E. discriminate E.
  - vm_compute. reflexivity.
Defined.

(** ** Saving twice *)

Lemma fill_stored_filled r :
  is_Some (r !! "History") -> fill_stored r = r.
Proof.
  intros [v Hv]. unfold fill_stored. rewrite Hv. cbn. by apply insert_id.
Qed.

Lemma fill_stored_idemp r : fill_stored (fill_stored r) = fill_stored r.
Proof.
  apply fill_stored_filled. unfold fill_stored. rewrite lookup_insert_eq. by eexists.
Qed.

Lemma stored_record_filled data : fill_stored (stored_record data) = stored_record data.
Proof.
  apply fill_stored_filled. unfold stored_record. rewrite lookup_insert_eq. by eexists.
Qed.

Lemma reread_idemp v v' : reread v = Some v' -> reread v' = Some v'.
Proof.
  destruct v as [s|d|h]; unfold reread; cbn.
  - destruct (Py.is_empty s) eqn:E; [done|].
    destruct (formula_text s) eqn:Ef; [done|]. cbn. rewrite E.
    destruct (na_text s) eqn:En; [done|]. cbn. intros [= <-]. cbn.
    rewrite E, Ef. cbn. by rewrite E, En.
  - by intros [= <-].
  - by intros [= <-].
Qed.

Lemma stable_fill r : stable r -> omap reread (fill_row r) = fill_stored r.
Proof.
  intros Hr. apply map_eq. intros c. unfold fill_row, fill_stored.
  rewrite lookup_omap, !lookup_insert.
  destruct (decide ("History" = c)) as [<-|].
  - cbn. destruct (r !! "History") as [v|] eqn:E; cbn; [by apply (Hr "History")|done].
  - destruct (r !! c) as [v|] eqn:E; cbn; [by apply (Hr c)|done].
Qed.

Lemma stable_fill_stored r : stable r -> stable (fill_stored r).
Proof.
  intros Hr c v. unfold fill_stored. rewrite lookup_insert.
  destruct (decide ("History" = c)) as [<-|]; [|apply Hr].
  intros [= <-]. destruct (r !! "History") as [v|] eqn:E; cbn; [by apply (Hr "History")|done].
Qed.

Lemma stable_stored_record data : stable (stored_record data).
Proof.
  intros c v. unfold stored_record. rewrite lookup_insert.
  destruct (decide ("History" = c)) as [<-|]; [by intros [= <-]|].
  rewrite lookup_omap. destruct (list_to_map data !! c) as [v'|]; cbn; [|done].
  apply reread_idemp.
Qed.

Lemma stored_rows_stable w r :
  plain_records w = true -> r ∈ stored_rows w -> stable r.
Proof.
  unfold plain_records, stored_rows. destruct (records w) as [f|]; [|by intros _ ?%elem_of_nil].
  intros Hp. cbn [sheet_to_frame rows].
  intros (x & -> & Hx)%list_elem_of_fmap c v. rewrite read_row_lookup.
  case_bool_decide; [|done].
  destruct (x !! c) as [y|] eqn:Ey; cbn; [|done].
  apply reread_read. by eapply plain_sheet_cell.
Qed.



(** ** What a Save leaves behind *)

Lemma write_file_ok e p c s :
  can_write e p = true ->
  write_file e p c s
  = (Ok (), State (World (records (disk s)) (<[Py.normpath p := c]> (files (disk s))))
              (shown s)).
Proof. intros H. unfold write_file. by rewrite H. Qed.

Lemma write_file_fails e p c s :
  can_write e p = false -> write_file e p c s = (Raise (OSError p), s).
Proof. intros H. unfold write_file. by rewrite H. Qed.

Lemma to_excel_fails e df s :
  can_write e memo_file = false -> to_excel e df s = (Raise (OSError memo_file), s).
Proof. intros H. unfold to_excel. by rewrite H. Qed.

Lemma save_memo_record_fails e data s :
  can_write e memo_file = false ->
  dict_get "History" data = None ->
  save_memo_record e data s = (Raise (OSError memo_file), s).
Proof.
  intros Hw Hd. rewrite save_memo_record_run, ensure_history_table by done.
  by apply to_excel_fails.
Qed.



(** X8. Nothing is undone when a later write fails.  If the scanned file
    cannot be written, a Save raises with the stored state untouched.  If the
    scanned file (not a PDF) is written and the workbook cannot be, the Save
    raises with the scanned file stored and the workbook as it was: the file
    stays without a record. *)
Theorem save_failures_leave_partial_state (e : env) (f : log_form) (up : upload) (w : world) :
  save_pressed f = true ->
  Py.strip (title f) ≠ "" ->
  uploaded_file f = Some up ->
  let n := generate_memo_number e in
  let info := Info ("Generated Memo Number: " +:+ n) in
  (can_write e (scanned_path n up) = false ->
     script e (LogMemo f) (State w [])
     = (Raise (OSError (scanned_path n up)), State w [info]))
  /\ (can_write e (scanned_path n up) = true ->
      is_pdf up = false ->
      can_write e memo_file = false ->
      script e (LogMemo f) (State w [])
      = (Raise (OSError memo_file),
         State (World (records w)
                      (<[Py.normpath (scanned_path n up) := Raw (u_bytes up)]> (files w)))
               [info])).
Proof.
  intros Hp Ht Hu n info. unfold script. rewrite bind_run, load_memos_ok.
  unfold log_memo_page. rewrite bind_run. cbn [show]. rewrite Hp.
  unfold save_memo_handler. rewrite (strip_not_empty _ Ht), Hu.
  fold n. fold (scanned_path n up). fold (is_pdf up). split.
  - intros Hws. by rewrite bind_run, write_file_fails.
  - intros Hws Hpdf Hwr. rewrite Hpdf.
    rewrite bind_run, write_file_ok by done. rewrite bind_run. cbn [mret M_ret].
    rewrite bind_run, save_memo_record_fails; [done|done|apply memo_data_no_history].
Qed.

Lemma save_failures_leave_partial_state_witness :
  script env_records_locked (LogMemo form_image) (State (World None ∅) [])
  = (Raise (OSError memo_file),
     State (World None
              (<[Py.normpath (scanned_path (generate_memo_number env_records_locked)
                                (Upload "scan.png" [])) := Raw []]> ∅))
           [Info ("Generated Memo Number: " +:+ generate_memo_number env_records_locked)]).
Proof.
  destruct (save_failures_leave_partial_state env_records_locked form_image
              (Upload "scan.png" []) (World None ∅)) as [_ H].
  - reflexivity.
  - by vm_compute.
  - reflexivity.
  - apply H.
    + by vm_compute.
    + by vm_compute.
    + by vm_compute.
Defined.

(** ** Where a scanned file is stored and where it is looked for *)

#[local] Instance off_lookup_refl : Reflexive off_lookup.
Proof. by intros s k _. Qed.
#[local] Instance off_lookup_trans : Transitive off_lookup.
Proof. intros s1 s2 s3 H1 H2 k Hk. by rewrite H2, H1. Qed.

Lemma show_off_lookup m : keeps off_lookup (show m).
Proof. by intros s r s' [= <- <-] k _. Qed.

Lemma to_excel_off_lookup e df : keeps off_lookup (to_excel e df).
Proof.
  intros s r s'. unfold to_excel.
  destruct (can_write e memo_file); by intros [= <- <-] k _.
Qed.

Lemma write_file_off_lookup e p c :
  Py.prefix lookup_prefix (Py.normpath p) = false -> keeps off_lookup (write_file e p c).
Proof.
  intros Hp s r s'. unfold write_file.
  destruct (can_write e p); intros [= <- <-] k Hk; [|done]. cbn.
  apply lookup_insert_ne. intros E. rewrite E in Hp. congruence.
Qed.

Lemma save_memo_record_off_lookup e data : keeps off_lookup (save_memo_record e data).
Proof.
  unfold save_memo_record.
  repeat (apply keeps_bind; [apply _| |intros]);
    try apply keeps_records_exist; try apply keeps_lift; try apply _.
  - destruct a; [|apply keeps_ret, _].
    apply keeps_bind; [apply _|apply keeps_read_excel, _|intros; apply keeps_ret, _].
  - apply to_excel_off_lookup.
Qed.

Lemma scanned_path_off_lookup e up :
  Py.prefix lookup_prefix (Py.normpath (scanned_path (generate_memo_number e) up)) = false.
Proof. reflexivity. Qed.

Lemma stamped_path_off_lookup e up :
  Py.prefix lookup_prefix
    (Py.normpath (Py.replace ".pdf" "_stamped.pdf"
                    (scanned_path (generate_memo_number e) up))) = false.
Proof. reflexivity. Qed.

Lemma lookup_path_on_prefix e ext :
  Py.prefix lookup_prefix
    (Py.normpath (Py.path_join scanned_folder
                    (format_cell (Some (VStr (generate_memo_number e))) +:+ "." +:+ ext)))
  = true.
Proof. reflexivity. Qed.

Lemma lookup_pdf_on_prefix e :
  Py.prefix lookup_prefix
    (Py.normpath (Py.path_join scanned_folder
                    (format_cell (Some (VStr (generate_memo_number e))) +:+ ".pdf")))
  = true.
Proof. reflexivity. Qed.

Lemma log_memo_page_off_lookup e f : keeps off_lookup (log_memo_page e f).
Proof.
  unfold log_memo_page.
  apply keeps_bind; [apply _|apply show_off_lookup|intros _].
  destruct (save_pressed f); [|apply keeps_ret, _].
  unfold save_memo_handler.
  destruct (Py.is_empty _); [apply show_off_lookup|].
  destruct (uploaded_file f) as [up|]; [|apply show_off_lookup].
  fold (scanned_path (generate_memo_number e) up).
  apply keeps_bind; [apply _| |intros _].
  { apply write_file_off_lookup, scanned_path_off_lookup. }
  apply keeps_bind; [apply _| |intros _].
  { case_bool_decide; [|apply keeps_ret, _].
    unfold stamp_pdf_with_memo_number.
    apply keeps_bind; [apply _| |intros doc].
    { destruct (can_open e _); [apply keeps_read_file, _|apply keeps_raise, _]. }
    case_bool_decide; [apply keeps_raise, _|].
    apply keeps_bind; [apply _| |intros; apply keeps_ret, _].
    apply write_file_off_lookup, stamped_path_off_lookup. }
  apply keeps_bind; [apply _|apply save_memo_record_off_lookup|intros; apply show_off_lookup].
Qed.

Lemma path_exists_off p w msgs :
  Py.prefix lookup_prefix (Py.normpath p) = true ->
  (forall k, Py.prefix lookup_prefix k = true -> files w !! k = None) ->
  path_exists p (State w msgs) = (Ok false, State w msgs).
Proof.
  intros Hp Hw. unfold path_exists. cbn [disk]. rewrite (Hw _ Hp).
  rewrite bool_decide_false; [done|]. by intros [? ?].
Qed.

(** X9. The scanned file of a memo is stored under its number with the
    slashes replaced, and looked for under the number as it is.  A run of the
    Log Memo page changes no file whose path starts with memos/scanned/NITT/,
    where every lookup for a generated number goes; so, unless such a file
    was put there by other means, the Preview page reports the scanned file
    of a logged memo as not found. *)
Theorem logged_scan_is_not_found (e e' : env) (f : log_form) (w : world) :
  let s' := snd (script e (LogMemo f) (State w [])) in
  (forall k, Py.prefix lookup_prefix k = true -> files (disk s') !! k = files w !! k)
  /\ ((forall k, Py.prefix lookup_prefix k = true -> files w !! k = None) ->
      forall msgs,
        show_scanned e' (format_cell (Some (VStr (generate_memo_number e))))
                     (State (disk s') msgs)
        = (Ok (), State (disk s') (msgs ++ [Warning "Scanned memo file not found."]))).
Proof.
  cbn zeta.
  assert (forall k, Py.prefix lookup_prefix k = true ->
            files (disk (snd (script e (LogMemo f) (State w [])))) !! k = files w !! k) as Hk.
  { unfold script. rewrite bind_run, load_memos_ok.
    destruct (log_memo_page e f (State w [])) as [r s'] eqn:E.
    apply log_memo_page_off_lookup in E. exact E. }
  split; [exact Hk|]. intros Hw msgs.
  set (w' := disk (snd (script e (LogMemo f) (State w [])))) in *.
  assert (forall k, Py.prefix lookup_prefix k = true -> files w' !! k = None) as Hw'.
  { intros k Hp. by rewrite Hk, Hw. }
  unfold show_scanned.
  rewrite bind_run, (path_exists_off _ w' msgs (lookup_pdf_on_prefix e) Hw').
  rewrite bind_run. cbn [first_existing].
  rewrite bind_run, (path_exists_off _ w' msgs (lookup_path_on_prefix e "png") Hw').
  rewrite bind_run, (path_exists_off _ w' msgs (lookup_path_on_prefix e "jpg") Hw').
  rewrite bind_run, (path_exists_off _ w' msgs (lookup_path_on_prefix e "jpeg") Hw').
  cbn [mret M_ret].
  rewrite bind_run, (path_exists_off _ w' msgs (lookup_pdf_on_prefix e) Hw'). done.
Qed.

Lemma logged_scan_is_not_found_witness :
  show_scanned env_later (format_cell (Some (VStr (generate_memo_number env_example))))
               (State (disk (snd run_logged)) [])
  = (Ok (), State (disk (snd run_logged)) [Warning "Scanned memo file not found."]).
Proof.
  destruct (logged_scan_is_not_found env_example env_later form_example (World None ∅))
    as [_ H].
  apply (H (fun k _ => lookup_empty k) []).
Defined.

(** ** The order of the writes of a Forward/Reply *)

(** X10. Forward/Reply writes the attachment first and the workbook second,
    and undoes nothing.  If the attachment cannot be written the handler
    raises with the stored state untouched, so the forward is lost.  If the
    attachment is written and the workbook cannot be, it raises with the
    attachment stored and the workbook as it was.  If both can be written it
    returns the changed table, with the attachment stored, the workbook
    replaced by the sheet of that table and the success message shown. *)
Theorem forward_writes_attachment_first (e : env) (i : nat) (f : preview_form)
    (df : DataFrame) (up : upload) (s : state) :
  has_column "History" df = true ->
  uploaded_attachment f = Some up ->
  let stored := <[Py.normpath (attach_path f up) := Raw (u_bytes up)]> (files (disk s)) in
  (can_write e (attach_path f up) = false ->
     forward_handler e i f df s = (Raise (OSError (attach_path f up)), s))
  /\ (can_write e (attach_path f up) = true -> can_write e memo_file = false ->
      forward_handler e i f df s
      = (Raise (OSError memo_file), State (World (records (disk s)) stored) (shown s)))
  /\ (can_write e (attach_path f up) = true -> can_write e memo_file = true ->
      forward_handler e i f df s
      = (Ok (forward_table e i f df),
         State (World (Some (frame_to_sheet (forward_table e i f df))) stored)
               (shown s ++ [forwarded_message f]))).
Proof.
  intros Hh Hu stored. unfold forward_handler. rewrite Hh, Hu.
  fold (attach_path f up). rewrite bind_run. cbn [mret M_ret].
  split; [|split].
  - intros Ha. by rewrite bind_run, write_file_fails.
  - intros Ha Hw. rewrite bind_run, write_file_ok by done.
    by rewrite bind_run, to_excel_fails.
  - intros Ha Hw. rewrite bind_run, write_file_ok by done.
    by rewrite bind_run, to_excel_ok.
Qed.

Lemma forward_writes_attachment_first_witness :
  forward_handler env_attachments_locked 0 forward_with_file table_example
    (State (World (Some sheet_logged) ∅) [])
  = (Raise (OSError (attach_path forward_with_file (Upload "note.png" []))),
     State (World (Some sheet_logged) ∅) []).
Proof.
  destruct (forward_writes_attachment_first env_attachments_locked 0 forward_with_file
              table_example (Upload "note.png" []) (State (World (Some sheet_logged) ∅) []))
    as [H _].
  - reflexivity.
  - reflexivity.
  - apply H. by vm_compute.
Defined.

(** ** From the Log Memo page to the Preview page *)

Lemma table_in_memory_columns old data k :
  k ∈ dict_keys data -> k ∈ columns (table_in_memory old data).
Proof.
  intros Hk. destruct old as [x|]; cbn; [|done].
  apply elem_of_app. destruct (decide (k ∈ xcolumns x)); [by left|right].
  by apply list_elem_of_filter.
Qed.

Lemma save_memo_record_columns e data s s' k :
  dict_get "History" data = None ->
  k ∈ dict_keys data ->
  save_memo_record e data s = (Ok (), s') ->
  exists x, records (disk s') = Some x /\ k ∈ xcolumns x.
Proof.
  intros Hd Hk H. apply save_memo_record_writes in H as (df & Hdf & H).
  rewrite ensure_history_table in Hdf by done. injection Hdf as <-.
  eexists. split; [exact H|]. cbn.
  pose proof (table_in_memory_columns (records (disk s)) data k Hk) as Hc.
  destruct (has_column _ _); [done|]. apply elem_of_app. by left.
Qed.

Lemma memo_data_number n f : dict_get "Memo Number" (memo_data n f) = Some (VStr n).
Proof. unfold memo_data. by destruct (who f). Qed.

Lemma memo_data_has_number n f : "Memo Number" ∈ dict_keys (memo_data n f).
Proof. unfold memo_data. destruct (who f); cbn; by left. Qed.

Lemma first_index_some p (rs : list (gmap string value)) r :
  r ∈ rs -> p r = true -> is_Some (first_index p rs).
Proof.
  intros Hr Hp. destruct (first_index p rs) eqn:E; [by eexists|].
  apply first_index_none in E. rewrite Forall_forall in E. specialize (E r Hr). congruence.
Qed.

(** X11. A memo that a Save has stored can be selected by the next run: the
    table loaded then is not empty, has a Memo Number column, and the
    selection of the new number finds a row carrying it, so the Preview page
    raises neither a KeyError nor an IndexError for it. *)
Theorem logged_memo_is_selectable (e : env) (f : log_form) (w : world) (s' : state) :
  save_pressed f = true ->
  Py.strip (title f) ≠ "" ->
  uploaded_file f ≠ None ->
  script e (LogMemo f) (State w []) = (Ok (), s') ->
  frame_empty (loaded (disk s')) = false
  /\ has_column "Memo Number" (loaded (disk s')) = true
  /\ exists i r,
       first_index (is_memo (Some (VStr (generate_memo_number e)))) (rows (loaded (disk s')))
       = Some i
       /\ rows (loaded (disk s')) !! i = Some r
       /\ r !! "Memo Number" = Some (VStr (generate_memo_number e)).
Proof.
  intros Hp Ht Hu. unfold script. rewrite bind_run, load_memos_ok.
  unfold log_memo_page. rewrite bind_run. cbn [show]. rewrite Hp.
  unfold save_memo_handler. rewrite (strip_not_empty _ Ht).
  destruct (uploaded_file f) as [up|]; [|done]. intros H.
  apply bind_inv in H as [(u1 & s1 & _ & H)|(? & _ & ?)]; [|done].
  apply bind_inv in H as [(u2 & s2 & _ & H)|(? & _ & ?)]; [|done].
  apply bind_inv in H as [([] & s3 & H & Hs)|(? & _ & ?)]; [|done].
  injection Hs as <-. cbn [disk]. clear u1 u2.
  pose proof (save_memo_record_columns _ _ _ _ "Memo Number"
                (memo_data_no_history _ _) (memo_data_has_number _ _) H) as (x & Hx & Hc).
  apply save_memo_record_inv in H as (f' & -> & Hrows); [|apply memo_data_no_history].
  cbn [disk records] in Hx. injection Hx as <-.
  set (n := generate_memo_number e) in *.
  set (w' := World (Some f') (files (disk s2))).
  assert (stored_rows w' = ((omap reread ∘ fill_row) <$> stored_rows (disk s2))
                           ++ [stored_record (memo_data n f)]) as Hst by exact Hrows.
  assert (stored_record (memo_data n f) !! "Memo Number" = Some (VStr n)) as Hn.
  { rewrite stored_record_lookup by done. by rewrite memo_data_number. }
  assert (stored_rows w' ≠ []) as Hne.
  { rewrite Hst. intros E. by apply app_eq_nil in E as [_ ?]. }
  split; [by apply loaded_not_empty|]. split.
  { rewrite loaded_columns_memo_number. cbn. by apply bool_decide_true. }
  assert (is_Some (first_index (is_memo (Some (VStr n))) (rows (loaded w')))) as [i Hi].
  { apply (first_index_some _ _ (fill_row (stored_record (memo_data n f)))).
    - rewrite loaded_rows, Hst, fmap_app. apply elem_of_app. right. cbn. by left.
    - rewrite is_memo_fill_row. unfold is_memo. rewrite Hn. by apply bool_decide_true. }
  exists i. destruct (first_index_lookup Hi) as (r & Hr & Hm).
  exists r. split; [done|]. split; [done|].
  unfold is_memo in Hm. destruct (r !! "Memo Number") as [a|]; [|done].
  by apply bool_decide_eq_true in Hm as ->.
Qed.

Lemma logged_memo_is_selectable_witness :
  frame_empty (loaded (disk (snd run_logged))) = false
  /\ has_column "Memo Number" (loaded (disk (snd run_logged))) = true
  /\ exists i r,
       first_index (is_memo (Some (VStr (generate_memo_number env_example))))
                   (rows (loaded (disk (snd run_logged))))
       = Some i
       /\ rows (loaded (disk (snd run_logged))) !! i = Some r
       /\ r !! "Memo Number" = Some (VStr (generate_memo_number env_example)).
Proof.
  apply (logged_memo_is_selectable env_example form_example (World None ∅) (snd run_logged)).
  - reflexivity.
  - by vm_compute.
  - done.
  - vm_compute. reflexivity.
Defined.

(** ** The columns a Forward/Reply leaves *)

Lemma set_at_columns_prefix i c v df : columns df `prefix_of` columns (set_at i c v df).
Proof.
  unfold set_at. cbn. destruct (has_column c df); [done|]. by apply prefix_app_r.
Qed.

(** X12. Forward/Reply removes no column and moves none: the columns of the
    table before come first and in their order, and History, Current Location
    and Status are columns afterwards, added at the end when the table lacked
    them. *)
Theorem forward_keeps_columns (e : env) (i : nat) (f : preview_form) (df : DataFrame) :
  columns df `prefix_of` columns (forward_table e i f df)
  /\ "History" ∈ columns (forward_table e i f df)
  /\ "Current Location" ∈ columns (forward_table e i f df)
  /\ "Status" ∈ columns (forward_table e i f df)
  /\ (has_column "History" df = true -> has_column "Current Location" df = true ->
      has_column "Status" df = true -> columns (forward_table e i f df) = columns df).
Proof.
  unfold forward_table. split; [|split; [|split; [|split]]].
  - etransitivity; [apply set_at_columns_prefix|].
    etransitivity; apply set_at_columns_prefix.
  - do 2 apply set_at_columns_old. apply set_at_columns_new.
  - apply set_at_columns_old, set_at_columns_new.
  - apply set_at_columns_new.
  - intros H1 H2 H3. unfold set_at at 1. cbn [columns].
    assert (forall i c v c' d, has_column c' d = true -> has_column c' (set_at i c v d) = true)
      as Hmono.
    { intros ? ? ? ? ? H. apply has_column_spec. apply set_at_columns_old.
      by apply has_column_spec. }
    rewrite (Hmono _ _ _ _ _ (Hmono _ _ _ _ _ H3)).
    unfold set_at at 1. cbn [columns]. rewrite (Hmono _ _ _ _ _ H2).
    unfold set_at. cbn [columns]. by rewrite H1.
Qed.

Lemma forward_keeps_columns_witness :
  columns (forward_table env_example 0 forward_example table_example)
  = columns table_example.
Proof.
  destruct (forward_keeps_columns env_example 0 forward_example table_example)
    as (_ & _ & _ & _ & H).
  apply H; reflexivity.
Defined.

(** ** The dashboard's filters and shown columns *)

Lemma filter_eq_columns c v df df' : filter_eq c v df = Ok df' -> columns df' = columns df.
Proof. unfold filter_eq. destruct (has_column c df); by intros [= <-]. Qed.

Lemma apply_filters_columns tf deptf df df' :
  apply_filters tf deptf df = Ok df' -> columns df' = columns df.
Proof.
  unfold apply_filters. intros H.
  destruct (if bool_decide (tf ≠ VStr "All") then _ else _) as [df1|] eqn:E1; [|done].
  assert (columns df1 = columns df) as <-.
  { destruct (bool_decide (tf ≠ VStr "All"));
      [exact (filter_eq_columns _ _ _ _ E1)|by injection E1 as <-]. }
  destruct (bool_decide (deptf ≠ VStr "All")); [|by injection H as <-].
  destruct (bool_decide (tf = VStr "Internal")); exact (filter_eq_columns _ _ _ _ H).
Qed.

Lemma ensure_location_columns df c :
  c ≠ "Current Location" -> c ∈ columns (ensure_location df) -> c ∈ columns df.
Proof.
  intros Hc. unfold ensure_location.
  destruct (has_column "Current Location" df) eqn:E; [done|].
  destruct (has_column "To" df); unfold copy_column, set_column; rewrite E; cbn;
    rewrite elem_of_app, list_elem_of_singleton; by intros [?|?].
Qed.

(** X13. The table of the dashboard must have all eight shown columns, and
    only Current Location is made up for.  The type and department filters
    keep the column labels; so when the loaded table lacks another shown
    column, From or To say, the selection of line 221 raises a KeyError for
    every table that has the labels the filters left, whichever rows it
    has. *)
Theorem dashboard_needs_shown_columns (c : string) (tf deptf : value)
    (df df1 df' : DataFrame) :
  c ∈ display_cols ->
  c ≠ "Current Location" ->
  c ∉ columns df ->
  apply_filters tf deptf (ensure_location df) = Ok df1 ->
  columns df' = columns df1 ->
  columns df1 = columns (ensure_location df)
  /\ exists msg, select_columns display_cols df' = Raise (KeyError msg).
Proof.
  intros Hc Hne Hmiss Hf Hcols. apply apply_filters_columns in Hf.
  split; [exact Hf|]. unfold select_columns.
  destruct (filter _ display_cols) as [|m ms] eqn:E; [|by eexists].
  exfalso. assert (c ∈ filter (fun c => c ∉ columns df') display_cols) as Hin.
  { apply list_elem_of_filter. split; [|done]. rewrite Hcols, Hf. intros Hin.
    by apply ensure_location_columns in Hin. }
  rewrite E in Hin. by apply elem_of_nil in Hin.
Qed.

Lemma dashboard_needs_shown_columns_witness :
  exists msg,
    select_columns display_cols (Frame (columns table_external) []) = Raise (KeyError msg).
Proof.
  destruct (dashboard_needs_shown_columns "From" (VStr "External") (VStr "All")
              table_external
              (Frame (columns table_external)
                     (filter (fun r : gmap string value => r !! "Type" = Some (VStr "External"))
                             (rows table_external)))
              (Frame (columns table_external) [])) as [_ H].
  - vm_compute. do 3 right. by left.
  - done.
  - vm_compute. intros H. repeat (apply elem_of_cons in H as [H|H]; [discriminate H|]).
    by apply elem_of_nil in H.
  - reflexivity.
  - reflexivity.
  - exact H.
Defined.

Lemma unique_elem seen l v : v ∈ unique seen l <-> v ∈ l /\ v ∉ seen.
Proof.
  revert seen. induction l as [|x l IH]; intros seen; cbn [unique].
  - split; [by intros ?%elem_of_nil|by intros [?%elem_of_nil _]].
  - case_bool_decide as Hx.
    + rewrite IH, elem_of_cons. split.
      * intros [? ?]. split; [by right|done].
      * intros [[->|?] ?]; [done|by split].
    + rewrite !elem_of_cons, IH, elem_of_cons. split.
      * intros [->|[? Hs]]; [by split; [left|]|]. split; [by right|].
        intros ?. apply Hs. by right.
      * intros [[->|?] Hs]; [by left|].
        destruct (decide (v = x)) as [->|Hvx]; [by left|right]. split; [done|].
        by intros [?|?].
Qed.

(** X14. Every memo type the filter box offers besides "All" is the Type of
    a stored memo: filtering by it keeps at least one row, keeps only rows of
    that Type, in their order, and changes no row. *)
Theorem offered_type_keeps_rows (df : DataFrame) (l : list value) (v : value) :
  type_options df = Ok l ->
  v ∈ l ->
  v ≠ VStr "All" ->
  exists df',
    filter_eq "Type" v df = Ok df'
    /\ rows df' ≠ []
    /\ Forall (fun r : gmap string value => r !! "Type" = Some v) (rows df')
    /\ rows df' `sublist_of` rows df.
Proof.
  unfold type_options, column_unique, filter_eq. intros Hl Hv Hne.
  destruct (has_column "Type" df); [|done]. injection Hl as <-.
  apply elem_of_cons in Hv as [->|Hv]; [done|].
  apply unique_elem in Hv as [Hv _].
  apply list_elem_of_omap in Hv as (r & Hr & Hrv).
  eexists. split; [done|]. cbn [rows]. split; [|split].
  - intros E. assert (r ∈ filter (fun r : gmap string value => r !! "Type" = Some v) (rows df))
      as Hin by (apply list_elem_of_filter; by split).
    rewrite E in Hin. by apply elem_of_nil in Hin.
  - apply Forall_forall. intros r' Hr'. by apply list_elem_of_filter in Hr' as [? _].
  - apply sublist_filter.
Qed.

Lemma offered_type_keeps_rows_witness :
  exists df',
    filter_eq "Type" (VStr "External") table_external = Ok df'
    /\ rows df' ≠ []
    /\ Forall (fun r : gmap string value => r !! "Type" = Some (VStr "External")) (rows df')
    /\ rows df' `sublist_of` rows table_external.
Proof.
  apply (offered_type_keeps_rows table_external [VStr "All"; VStr "External"]).
  - vm_compute. reflexivity.
  - right. by left.
  - done.
Defined.

(** ** Where the From and To columns come from *)

Lemma set_at_columns_inv i c v df c' :
  c' ∈ columns (set_at i c v df) -> c' = c \/ c' ∈ columns df.
Proof.
  unfold set_at. cbn. destruct (has_column c df); [by right|].
  rewrite elem_of_app, list_elem_of_singleton. by intros [?|?]; [right|left].
Qed.

Lemma forward_table_columns_inv e i f df c :
  c ∈ columns (forward_table e i f df) ->
  c ∈ columns df \/ c = "History" \/ c = "Current Location" \/ c = "Status".
Proof.
  unfold forward_table.
  intros [->|[->|[->|H]%set_at_columns_inv]%set_at_columns_inv]%set_at_columns_inv; auto.
Qed.

Lemma loaded_columns_inv w c :
  c ∈ columns (loaded w) -> c ∈ stored_columns w \/ c = "History".
Proof.
  unfold loaded, stored_columns. destruct (records w) as [x|]; [|by left].
  unfold loaded_table. destruct (has_column "History" (sheet_to_frame x)) eqn:E; [by left|].
  unfold set_column. rewrite E. cbn.
  rewrite elem_of_app, list_elem_of_singleton. by intros [?|?]; [left|right].
Qed.

Lemma table_in_memory_columns_inv old data c :
  c ∈ columns (table_in_memory old data) ->
  c ∈ dict_keys data \/ exists x, old = Some x /\ c ∈ xcolumns x.
Proof.
  destruct old as [x|]; cbn; [|by left].
  rewrite elem_of_app. intros [?|[_ ?]%list_elem_of_filter]; [right; by exists x|by left].
Qed.

Lemma save_memo_record_records e data s r s' :
  dict_get "History" data = None ->
  save_memo_record e data s = (r, s') ->
  records (disk s') = records (disk s)
  \/ exists cols rs,
       records (disk s') = Some (Sheet cols rs)
       /\ forall c, c ∈ cols ->
            c = "History" \/ c ∈ dict_keys data
            \/ exists x, records (disk s) = Some x /\ c ∈ xcolumns x.
Proof.
  intros Hd. rewrite save_memo_record_run, ensure_history_table by done. intros H.
  apply to_excel_inv in H as [[_ ->]|[_ ->]]; [right|by left].
  eexists _, _. split; [reflexivity|]. intros c Hc.
  assert (c = "History" \/ c ∈ columns (table_in_memory (records (disk s)) data)) as [?|Hc'].
  { destruct (has_column "History" _); [by right|].
    apply elem_of_app in Hc as [?|Hc]; [by right|left]. by apply list_elem_of_singleton in Hc. }
  - by left.
  - right. by apply table_in_memory_columns_inv.
Qed.

Lemma log_run_records e f w :
  let s' := snd (script e (LogMemo f) (State w [])) in
  records (disk s') = records w
  \/ exists cols rs,
       records (disk s') = Some (Sheet cols rs)
       /\ forall c, c ∈ cols ->
            c = "History" \/ c ∈ dict_keys (memo_data (generate_memo_number e) f)
            \/ c ∈ stored_columns w.
Proof.
  cbn zeta. unfold script. rewrite bind_run, load_memos_ok.
  unfold log_memo_page. rewrite bind_run. cbn [show].
  destruct (save_pressed f); [|by left].
  unfold save_memo_handler.
  destruct (Py.is_empty _); [by left|].
  destruct (uploaded_file f) as [up|]; [|by left].
  rewrite bind_run.
  destruct (write_file e _ _ _) as [[[]|ex] s1] eqn:E1; cycle 1.
  { left. cbn [snd]. by apply write_file_inv in E1 as [-> _]. }
  apply write_file_inv in E1 as [E1 _]. cbn in E1.
  rewrite bind_run.
  match goal with |- context [(if ?b then ?m else ?m') s1] =>
    destruct ((if b then m else m') s1) as [[p|ex] s2] eqn:E2 end; cycle 1.
  { left. cbn [snd]. case_bool_decide; [|by inversion E2].
    apply stamp_same_records in E2. by rewrite E2, E1. }
  assert (records (disk s2) = records w) as E2'.
  { case_bool_decide; [|by inversion E2; subst].
    apply stamp_same_records in E2. by rewrite E2, E1. }
  rewrite bind_run.
  destruct (save_memo_record e _ s2) as [r3 s3] eqn:E3.
  apply save_memo_record_records in E3 as [E3|(cols & rs & E3 & Hc)];
    [| |apply memo_data_no_history].
  - left. destruct r3 as [[]|ex]; cbn [snd show disk]; by rewrite E3, E2'.
  - right. exists cols, rs.
    split; [destruct r3 as [[]|ex]; cbn [snd show disk]; exact E3|].
    intros c Hin. destruct (Hc c Hin) as [?|[?|(x & Hx & ?)]]; [by left|by right; left|].
    right; right. unfold stored_columns. by rewrite <- E2', Hx.
Qed.

(** X15. The workbook gets a From or To column only through the Save of an
    internal memo: forwarding, and the Save of an external memo, leave a
    workbook without such a column without it.  Until an internal memo is
    saved the dashboard therefore lacks two of its shown columns. *)
Theorem from_to_only_from_internal_memos (e : env) (p : page) (w : world) (c : string) :
  c = "From" \/ c = "To" ->
  c ∉ stored_columns w ->
  match p with
  | LogMemo f => memo_type (who f) = "External"
  | PreviewForward _ => True
  end ->
  c ∉ stored_columns (disk (snd (script e p (State w [])))).
Proof.
  intros Hc Hw Hp Hin. destruct p as [f|f].
  - destruct (log_run_records e f w) as [E|(cols & rs & E & Hcols)];
      unfold stored_columns in Hin; rewrite E in Hin; [done|].
    cbn in Hin. destruct (Hcols c Hin) as [->|[Hk|?]]; [by destruct Hc| |done].
    unfold memo_data in Hk. destruct (who f); [done|]. cbn in Hk.
    destruct Hc as [-> | ->];
      repeat (apply elem_of_cons in Hk as [Hk|Hk]; [discriminate Hk|]);
      by apply elem_of_nil in Hk.
  - destruct (preview_run_records e f w) as [E|(i & _ & _ & E)];
      unfold stored_columns in Hin; rewrite E in Hin; [done|].
    cbn in Hin. apply forward_table_columns_inv in Hin as [Hin|[->|[->| ->]]];
      try (by destruct Hc).
    apply loaded_columns_inv in Hin as [?| ->]; [done|by destruct Hc].
Qed.

Lemma from_to_only_from_internal_memos_witness :
  "From" ∉ stored_columns
             (disk (snd (script env_example (LogMemo form_external) (State (World None ∅) [])))).
Proof.
  apply (from_to_only_from_internal_memos env_example (LogMemo form_external)
           (World None ∅) "From").
  - by left.
  - apply not_elem_of_nil.
  - reflexivity.
Defined.

(** ** What a Forward/Reply does to a stored history *)

(** X16. A Forward/Reply run that returns for a stored memo, with a
    recipient, a comment and an attachment name of ASCII characters and an
    entry whose text fits a cell, keeps the number of stored rows and leaves,
    as the History of the first row with the selected number, the text of a
    list of one entry, the new one: whatever was stored there before is
    replaced, not extended. *)
Theorem forward_run_replaces_history (e : env) (f : preview_form) (w : world) (s' : state) :
  forward_pressed f = true ->
  ascii_form e f = true ->
  stored_rows w ≠ [] ->
  script e (PreviewForward f) (State w []) = (Ok (), s') ->
  exists i,
    first_index (is_memo (selected_memo f)) (rows (loaded w)) = Some i
    /\ stored_rows (disk s') !! i ≫= (fun r => r !! "History")
       = Some (VStr (str_history [new_entry e f]))
    /\ length (stored_rows (disk s')) = length (stored_rows w).
Proof.
  intros Hp _ Hne H.
  pose proof (loaded_not_empty w Hne) as Hl.
  destruct (forward_run_stores_one_entry e f w s' H Hp Hl) as (i & Hi & Hh).
  exists i. split; [done|]. split; [done|].
  unfold script in H. rewrite bind_run, load_memos_ok in H. cbn [disk] in H.
  fold (loaded w) in H.
  destruct (preview_page_forwarded _ _ _ _ _ H Hp Hl) as (j & Hj & Hr).
  unfold stored_rows at 1. rewrite Hr.
  cbn [sheet_to_frame frame_to_sheet rows xrows xcolumns columns].
  by rewrite !length_fmap, forward_table_rows, length_alter, loaded_rows, length_fmap.
Qed.

Lemma forward_run_replaces_history_witness :
  exists i,
    first_index (is_memo (selected_memo forward_again)) (rows (loaded (disk (snd run_forwarded))))
    = Some i
    /\ stored_rows (disk (snd run_forwarded_again)) !! i ≫= (fun r => r !! "History")
       = Some (VStr (str_history [new_entry env_later forward_again]))
    /\ length (stored_rows (disk (snd run_forwarded_again)))
       = length (stored_rows (disk (snd run_forwarded))).
Proof.
  apply (forward_run_replaces_history env_later forward_again (disk (snd run_forwarded))
           (snd run_forwarded_again)).
  - reflexivity.
  - vm_compute. reflexivity.
  - intros E. apply (f_equal length) in E. vm_compute in E. discriminate E.
  - vm_compute. reflexivity.
Defined.
